(** * photos.py: the photo organizer, embedded and verified

    A shallow embedding of [src/photos.py].  Python values are modelled as
    follows: [str] as [string], [int] as [Z], [dict] as [gmap], exceptions as
    the [Raise] outcome of a small error monad.  The file system is a finite
    map from resolved paths to nodes; [os.path] is the POSIX flavour. *)

From Stdlib Require Import ZArith Ascii String DecimalString List Lia.
From Stdlib Require DecimalZ DecimalPos.
From stdpp Require Import gmap strings list fin_maps.

Local Open Scope Z_scope.

(* ===================================================================== *)
(** * Outcomes of Python code *)
(* ===================================================================== *)

(** The exceptions the modelled code can raise. *)
Inductive exn : Type :=
  | IndexError
  | FileNotFoundError
  | FileExistsError
  | NotADirectoryError
  | IsADirectoryError
  | SameFileError
  | KeyError
  | UnboundLocalError
  | UnidentifiedImageError.

(** A call returns, raises, or (for the [while] loop only) runs out of the
    fuel the model gave it. *)
Inductive outcome (A : Type) : Type :=
  | Ok (a : A)
  | Raise (e : exn)
  | Diverge.

Arguments Ok {A} a.
Arguments Raise {A} e.
Arguments Diverge {A}.

#[export] Instance outcome_ret : MRet outcome := fun A a => Ok a.

#[export] Instance outcome_bind : MBind outcome := fun A B k m =>
  match m with
  | Ok a => k a
  | Raise e => Raise e
  | Diverge => Diverge
  end.

(* ===================================================================== *)
(** * Python string primitives *)
(* ===================================================================== *)

Module Py.

(** [s.split(sep)] for a one-character separator: never the empty list. *)
Fixpoint split (sep : ascii) (s : string) : list string :=
  match s with
  | EmptyString => [EmptyString]
  | String c s' =>
      if Ascii.eqb c sep then EmptyString :: split sep s'
      else match split sep s' with
           | [] => [String c EmptyString]
           | p :: ps => String c p :: ps
           end
  end.

(** [sep.join(parts)]. *)
Fixpoint join (sep : string) (parts : list string) : string :=
  match parts with
  | [] => EmptyString
  | [p] => p
  | p :: ps => p +:+ sep +:+ join sep ps
  end.

(** [str(n)] for an [int]. *)
Definition str (n : Z) : string := NilZero.string_of_int (Z.to_int n).

(** [l[i]]: raises [IndexError] out of range. *)
Definition index {A : Type} (l : list A) (i : nat) : outcome A :=
  match l !! i with
  | Some x => Ok x
  | None => Raise IndexError
  end.

(** [l[i] = x]: raises [IndexError] out of range. *)
Definition set_index {A : Type} (l : list A) (i : nat) (x : A) : outcome (list A) :=
  match l !! i with
  | Some _ => Ok (<[i := x]> l)
  | None => Raise IndexError
  end.

Definition is_upper (c : ascii) : bool :=
  let n := nat_of_ascii c in (65 <=? n)%nat && (n <=? 90)%nat.

Definition lower_char (c : ascii) : ascii :=
  if is_upper c then ascii_of_nat (nat_of_ascii c + 32) else c.

(** [s.lower()], on the ASCII letters. *)
Fixpoint lower (s : string) : string :=
  match s with
  | EmptyString => EmptyString
  | String c s' => String (lower_char c) (lower s')
  end.

(** [s.startswith(c)] and [s.endswith(c)] for one character. *)
Definition startswith (s : string) (c : ascii) : bool :=
  match s with
  | String c' _ => Ascii.eqb c' c
  | EmptyString => false
  end.

Fixpoint endswith (s : string) (c : ascii) : bool :=
  match s with
  | EmptyString => false
  | String c' EmptyString => Ascii.eqb c' c
  | String _ s' => endswith s' c
  end.

(** [x in l] for a list of strings. *)
Definition mem (x : string) (l : list string) : bool :=
  existsb (String.eqb x) l.

(** Truth value of a [str]: non-empty. *)
Definition truthy_str (s : string) : bool :=
  match s with EmptyString => false | _ => true end.

End Py.

(* ===================================================================== *)
(** * [time]: broken-down time and [strftime] *)
(* ===================================================================== *)

Module Time.

(** The fields of [time.struct_time] that the format of the program reads. *)
Record struct_time : Type := {
  tm_year : Z;
  tm_mon : Z;
  tm_mday : Z;
  tm_hour : Z;
  tm_min : Z;
  tm_sec : Z
}.

(** Days since 1970-01-01 to the proleptic Gregorian (year, month, day). *)
Definition civil_from_days (days : Z) : Z * Z * Z :=
  let z := days + 719468 in
  let era := z / 146097 in
  let doe := z - era * 146097 in
  let yoe := (doe - doe / 1460 + doe / 36524 - doe / 146096) / 365 in
  let y := yoe + era * 400 in
  let doy := doe - (365 * yoe + yoe / 4 - yoe / 100) in
  let mp := (5 * doy + 2) / 153 in
  let d := doy - (153 * mp + 2) / 5 + 1 in
  let m := if mp <? 10 then mp + 3 else mp - 9 in
  (if m <=? 2 then y + 1 else y, m, d).

(** [time.gmtime(secs)]. *)
Definition gmtime (secs : Z) : struct_time :=
  let '(y, m, d) := civil_from_days (secs / 86400) in
  let r := secs mod 86400 in
  {| tm_year := y; tm_mon := m; tm_mday := d;
     tm_hour := r / 3600; tm_min := (r mod 3600) / 60; tm_sec := r mod 60 |}.

(** [time.localtime(secs)], for a zone whose offset from UTC at the instant
    [secs] is [utcoffset secs] seconds. *)
Definition localtime (utcoffset : Z -> Z) (secs : Z) : struct_time :=
  gmtime (secs + utcoffset secs).

(** A number on two columns, zero-padded. *)
Definition pad2 (n : Z) : string :=
  if n <? 10 then "0" +:+ Py.str n else Py.str n.

(** The hour on the 12-hour clock, as [%I] prints it. *)
Definition hour12 (h : Z) : Z :=
  if h mod 12 =? 0 then 12 else h mod 12.

(** One conversion of [strftime]. *)
Definition directive (d : ascii) (t : struct_time) : string :=
  if Ascii.eqb d "Y" then Py.str (tm_year t)
  else if Ascii.eqb d "m" then pad2 (tm_mon t)
  else if Ascii.eqb d "d" then pad2 (tm_mday t)
  else if Ascii.eqb d "H" then pad2 (tm_hour t)
  else if Ascii.eqb d "I" then pad2 (hour12 (tm_hour t))
  else if Ascii.eqb d "M" then pad2 (tm_min t)
  else if Ascii.eqb d "S" then pad2 (tm_sec t)
  else if Ascii.eqb d "%" then "%"
  else String "%" (String d EmptyString).

(** [time.strftime(fmt, t)], for the conversions above. *)
Fixpoint strftime (fmt : string) (t : struct_time) : string :=
  match fmt with
  | EmptyString => EmptyString
  | String c rest =>
      if Ascii.eqb c "%" then
        match rest with
        | String d rest' => directive d t +:+ strftime rest' t
        | EmptyString => String c EmptyString
        end
      else String c (strftime rest t)
  end.

End Time.

(* ===================================================================== *)
(** * The environment: file system, clock and time zone *)
(* ===================================================================== *)

Module OS.

Record stat : Type := { st_ctime : Z; st_mtime : Z }.

(** What [Image.open(path)._getexif()] does on a file's content: it raises,
    or returns [None] or the dictionary of the tags. *)
Inductive exif_read : Type :=
  | ExifRaises (e : exn)
  | ExifReturns (info : option (gmap Z string)).

Inductive node : Type :=
  | Dir (st : stat)
  | File (st : stat) (img : exif_read) (data : string).

(** A world without symbolic links and without permissions.  The keys of
    [w_fs] are resolved paths: the components of a path, after ["/"] when the
    path is absolute; the working directory is the key [[]], and [".."] is a
    name like another.  [w_now] is the clock that stamps what is created and
    [w_utcoffset] the zone of [time.localtime]. *)
Record world : Type := {
  w_fs : gmap (list string) node;
  w_now : Z;
  w_utcoffset : Z -> Z
}.

Definition with_fs (w : world) (fs : gmap (list string) node) : world :=
  {| w_fs := fs; w_now := w_now w; w_utcoffset := w_utcoffset w |}.

(** [posixpath.join(a, *p)]. *)
Fixpoint path_join (a : string) (p : list string) : string :=
  match p with
  | [] => a
  | b :: p' =>
      let path :=
        if Py.startswith b "/" then b
        else if negb (Py.truthy_str a) || Py.endswith a "/" then a +:+ b
        else a +:+ "/" +:+ b in
      path_join path p'
  end.

Definition is_name (c : string) : bool :=
  negb (String.eqb c "") && negb (String.eqb c ".").

(** Path resolution: empty and ["."] components name no new directory. *)
Definition components (p : string) : list string :=
  List.filter is_name (Py.split "/" p).

Definition resolve (p : string) : list string :=
  (if Py.startswith p "/" then ["/"] else []) ++ components p.

Definition lookup_path (w : world) (p : string) : option node :=
  if Py.truthy_str p then w_fs w !! resolve p else None.

(** [os.path.exists(p)] and [os.path.isdir(p)]. *)
Definition path_exists (w : world) (p : string) : bool :=
  match lookup_path w p with Some _ => true | None => false end.

Definition path_isdir (w : world) (p : string) : bool :=
  match lookup_path w p with Some (Dir _) => true | _ => false end.

Definition node_stat (n : node) : stat :=
  match n with Dir st => st | File st _ _ => st end.

(** [os.path.getctime(p)] and [os.path.getmtime(p)], in whole seconds. *)
Definition getctime (w : world) (p : string) : outcome Z :=
  match lookup_path w p with
  | Some n => Ok (st_ctime (node_stat n))
  | None => Raise FileNotFoundError
  end.

Definition getmtime (w : world) (p : string) : outcome Z :=
  match lookup_path w p with
  | Some n => Ok (st_mtime (node_stat n))
  | None => Raise FileNotFoundError
  end.

(** [Image.open(p)._getexif()]. *)
Definition Image_getexif (w : world) (p : string) : outcome (option (gmap Z string)) :=
  match lookup_path w p with
  | Some (File _ (ExifReturns info) _) => Ok info
  | Some (File _ (ExifRaises e) _) => Raise e
  | Some (Dir _) => Raise IsADirectoryError
  | None => Raise FileNotFoundError
  end.

(** Create, from the directory [pre] down, every missing directory of
    [comps]. *)
Fixpoint mkdirs (now : Z) (fs : gmap (list string) node)
    (pre comps : list string) : outcome (gmap (list string) node) :=
  match comps with
  | [] => Ok fs
  | c :: cs =>
      let q := pre ++ [c] in
      match fs !! q with
      | Some (Dir _) => mkdirs now fs q cs
      | Some (File _ _ _) => Raise NotADirectoryError
      | None =>
          mkdirs now (<[q := Dir {| st_ctime := now; st_mtime := now |}]> fs) q cs
      end
  end.

(** [os.makedirs(name)] (with [exist_ok=False]). *)
Definition makedirs (w : world) (name : string) : outcome world :=
  if negb (Py.truthy_str name) then Raise FileNotFoundError
  else if path_exists w name then Raise FileExistsError
  else fs ← mkdirs (w_now w) (w_fs w) [] (resolve name); Ok (with_fs w fs).

(** [s.rfind(c)]: the last index of [c] in [s], or [-1]. *)
Fixpoint rfind_from (c : ascii) (s : string) (i last : Z) : Z :=
  match s with
  | EmptyString => last
  | String c' s' => rfind_from c s' (i + 1) (if Ascii.eqb c' c then i else last)
  end.

Definition rfind (c : ascii) (s : string) : Z := rfind_from c s 0 (-1).

(** [s[i:j]] and [s[i:]] for indices that are not negative. *)
Definition slice (s : string) (i j : Z) : string :=
  String.substring (Z.to_nat i) (Z.to_nat (j - i)) s.

Definition slice_from (s : string) (i : Z) : string :=
  String.substring (Z.to_nat i) (String.length s - Z.to_nat i) s.

(** [posixpath.basename(p)]. *)
Definition basename (p : string) : string := slice_from p (rfind "/" p + 1).

(** [posixpath.splitext(p)]: the extension starts at the last dot of the
    last component, leading dots of the component apart. *)
Definition splitext (p : string) : string * string :=
  let sepIndex := rfind "/" p in
  let dotIndex := rfind "." p in
  if (sepIndex <? dotIndex)
     && existsb (fun ch => negb (Ascii.eqb ch "."))
          (list_ascii_of_string (slice p (sepIndex + 1) dotIndex))
  then (slice p 0 dotIndex, slice_from p dotIndex)
  else (p, EmptyString).

(** [shutil.copy2(src, dst)]: content and modification time of [src] go to
    [dst]; an existing file is overwritten. *)
Definition copy2 (w : world) (src dst : string) : outcome world :=
  match lookup_path w src with
  | Some (File st img data) =>
      let dst := if path_isdir w dst then path_join dst [basename src] else dst in
      if negb (Py.truthy_str dst) then Raise FileNotFoundError
      else
        let q := resolve dst in
        match w_fs w !! q with
        | Some (Dir _) => Raise IsADirectoryError
        | Some (File st' _ _) =>
            if bool_decide (q = resolve src) then Raise SameFileError
            else Ok (with_fs w (<[q := File {| st_ctime := st_ctime st';
                                               st_mtime := st_mtime st |} img data]> (w_fs w)))
        | None =>
            match w_fs w !! removelast q with
            | Some (Dir _) =>
                Ok (with_fs w (<[q := File {| st_ctime := w_now w;
                                              st_mtime := st_mtime st |} img data]> (w_fs w)))
            | Some (File _ _ _) => Raise NotADirectoryError
            | None => Raise FileNotFoundError
            end
        end
  | Some (Dir _) => Raise IsADirectoryError
  | None => Raise FileNotFoundError
  end.

End OS.

Import OS.

(* ===================================================================== *)
(** * photos.py *)
(* ===================================================================== *)

(** The parsed command line. *)
Record Args : Type := { source_dir : string; dest_dir : string }.

(** [try: ... except: pass] around an assignment: on any exception the
    variable keeps its previous value. *)
Definition try_except {A : Type} (m : outcome A) (previous : A) : outcome A :=
  match m with
  | Ok a => Ok a
  | Raise _ => Ok previous
  | Diverge => Diverge
  end.

(** Truth value of [info]: [None] and the empty [dict] are false. *)
Definition truthy_info (info : option (gmap Z string)) : bool :=
  match info with
  | Some d => negb (bool_decide (d = ∅))
  | None => false
  end.

(** [key in info], evaluated only when [info] is a [dict]. *)
Definition info_contains (info : option (gmap Z string)) (key : Z) : bool :=
  match info with
  | Some d => bool_decide (is_Some (d !! key))
  | None => false
  end.

(** [info[key]]. *)
Definition info_get (info : option (gmap Z string)) (key : Z) : outcome string :=
  match info with
  | Some d => match d !! key with Some v => Ok v | None => Raise KeyError end
  | None => Raise KeyError
  end.

(** [get_best_date(full_path)]: the value of the tag 36867
    (DateTimeOriginal) when the metadata has it, else the earlier of the two
    file times, in local time. *)
Definition get_best_date (w : world) (full_path : string) : outcome (string * bool) :=
  info ← try_except (Image_getexif w full_path) None;
  if truthy_info info && info_contains info 36867 then
    best_date ← info_get info 36867;
    Ok (best_date, true)
  else
    created_date ← getctime w full_path;
    modified_date ← getmtime w full_path;
    let ctime := if modified_date <? created_date then modified_date else created_date in
    let best_date :=
      Time.strftime "%Y:%m:%d %I:%M:%S" (Time.localtime (w_utcoffset w) ctime) in
    Ok (best_date, false).

(** [create_dir(args, date_string, media_dir)]: [parts[0]] is the year and
    [parts[1]], which a date without colon does not have, the month. *)
Definition create_dir (args : Args) (date_string media_dir : string) (w : world)
    : outcome (string * world) :=
  let base_dir := dest_dir args in
  let parts := Py.split ":" date_string in
  year ← Py.index parts 0;
  month ← Py.index parts 1;
  let new_dir := path_join base_dir [media_dir; year; year +:+ "-" +:+ month] in
  w' ← (if negb (path_exists w new_dir) then makedirs w new_dir else Ok w);
  Ok (new_dir, w').

(** The name the [while] loop of [copy_file] tries at the count [append]
    (the three statements after [append += 1]). *)
Definition disambiguated_name (source_file_name : string) (append : Z) : outcome string :=
  let name_parts := Py.split "." source_file_name in
  first ← Py.index name_parts 0;
  name_parts ← Py.set_index name_parts 0 (first +:+ "-" +:+ Py.str append);
  Ok (Py.join "." name_parts).

(** The [while] loop of [copy_file]; [fuel] bounds its iterations.  The
    result is the final [append], [new_name] (unbound before the first
    iteration) and [dest_full_path]. *)
Fixpoint copy_file_loop (fuel : nat) (w : world) (source_file_name dest_dir : string)
    (append : Z) (new_name : option string) (dest_full_path : string)
    : outcome (Z * option string * string) :=
  if negb (path_exists w dest_full_path) then Ok (append, new_name, dest_full_path)
  else
    match fuel with
    | O => Diverge
    | S fuel' =>
        let append := append + 1 in
        new_name ← disambiguated_name source_file_name append;
        let dest_full_path := path_join dest_dir [new_name] in
        copy_file_loop fuel' w source_file_name dest_dir append (Some new_name) dest_full_path
    end.

(** The loop tests the existence of paths of a finite file system, so one
    more iteration than the file system has entries is fuel enough
    ([copy_file_loop_converges] below). *)
Definition copy_file (source_dir source_file_name dest_dir : string) (w : world)
    : outcome (option string * world) :=
  let source_full_path := path_join source_dir [source_file_name] in
  let dest_full_path := path_join dest_dir [source_file_name] in
  let append := 0 in
  '(append, new_name, dest_full_path) ←
    copy_file_loop (S (size (w_fs w))) w source_file_name dest_dir append None dest_full_path;
  w' ← copy2 w source_full_path dest_full_path;
  if 0 <? append then
    match new_name with
    | Some n => Ok (Some n, w')
    | None => Raise UnboundLocalError
    end
  else Ok (None, w').

(** The counters of [main], the lines passed to [log], and the world. *)
Record state : Type := {
  total_files : Z;
  ignored_files : Z;
  total_exif : Z;
  total_photos : Z;
  total_videos : Z;
  file_exts : gmap string Z;
  logged : list string;
  the_world : world
}.

Definition photo_exts : list string :=
  [".jpg"; ".png"; ".jpeg"; ".tiff"; ".tif"; ".bmp"; ".gif"; ".crw"].

Definition video_exts : list string :=
  [".mov"; ".mp4"; ".m4v"; ".mpg"; ".mpeg"; ".ogv"; ".flv"; ".avi"; ".wmv"; ".webm"].

Definition ignore_files : list string := ["Thumbs.db"; ".DS_Store"; "desktop.ini"].

(** The assignments of [main] to its variables. *)
Definition incr_total_files (st : state) : state :=
  {| total_files := total_files st + 1; ignored_files := ignored_files st;
     total_exif := total_exif st; total_photos := total_photos st;
     total_videos := total_videos st; file_exts := file_exts st;
     logged := logged st; the_world := the_world st |}.

Definition incr_ignored_files (st : state) : state :=
  {| total_files := total_files st; ignored_files := ignored_files st + 1;
     total_exif := total_exif st; total_photos := total_photos st;
     total_videos := total_videos st; file_exts := file_exts st;
     logged := logged st; the_world := the_world st |}.

Definition incr_total_exif (st : state) : state :=
  {| total_files := total_files st; ignored_files := ignored_files st;
     total_exif := total_exif st + 1; total_photos := total_photos st;
     total_videos := total_videos st; file_exts := file_exts st;
     logged := logged st; the_world := the_world st |}.

Definition incr_total_photos (st : state) : state :=
  {| total_files := total_files st; ignored_files := ignored_files st;
     total_exif := total_exif st; total_photos := total_photos st + 1;
     total_videos := total_videos st; file_exts := file_exts st;
     logged := logged st; the_world := the_world st |}.

Definition incr_total_videos (st : state) : state :=
  {| total_files := total_files st; ignored_files := ignored_files st;
     total_exif := total_exif st; total_photos := total_photos st;
     total_videos := total_videos st + 1; file_exts := file_exts st;
     logged := logged st; the_world := the_world st |}.

Definition set_file_exts (exts : gmap string Z) (st : state) : state :=
  {| total_files := total_files st; ignored_files := ignored_files st;
     total_exif := total_exif st; total_photos := total_photos st;
     total_videos := total_videos st; file_exts := exts;
     logged := logged st; the_world := the_world st |}.

Definition set_world (w : world) (st : state) : state :=
  {| total_files := total_files st; ignored_files := ignored_files st;
     total_exif := total_exif st; total_photos := total_photos st;
     total_videos := total_videos st; file_exts := file_exts st;
     logged := logged st; the_world := w |}.

(** [log(message)]: the message goes to the screen and to the log file. *)
Definition log (message : string) (st : state) : state :=
  {| total_files := total_files st; ignored_files := ignored_files st;
     total_exif := total_exif st; total_photos := total_photos st;
     total_videos := total_videos st; file_exts := file_exts st;
     logged := logged st ++ [message]; the_world := the_world st |}.

(** The histogram update: [file_exts[file_ext] += 1], or [= 1] for a new key. *)
Definition count_ext (file_ext : string) (exts : gmap string Z) : gmap string Z :=
  match exts !! file_ext with
  | Some n => <[file_ext := n + 1]> exts
  | None => <[file_ext := 1]> exts
  end.

(** The part of the loop body that runs for every file, from the count of the
    file to its classification: the state after it, the resolved date and the
    category. *)
Definition account_file (root name : string) (st : state)
    : outcome (state * string * string) :=
  let st := incr_total_files st in
  let full_path := path_join root [name] in
  let '(file_name, file_ext) := splitext full_path in
  let file_ext := Py.lower file_ext in
  let st := set_file_exts (count_ext file_ext (file_exts st)) st in
  '(best_date, had_exif) ← get_best_date (the_world st) full_path;
  let st := if had_exif : bool then incr_total_exif st else st in
  let st := log ((if had_exif : bool then "(Exif) " else "") +:+ best_date +:+ " " +:+ full_path) st in
  if Py.mem file_ext photo_exts then Ok (incr_total_photos st, best_date, "Pictures")
  else if Py.mem file_ext video_exts then Ok (incr_total_videos st, best_date, "Videos")
  else Ok (st, best_date, "Other").

(** The body of the inner loop of [main], for the file [name] of [root]. *)
Definition process_file (args : Args) (root name : string) (st : state) : outcome state :=
  '(st, best_date, media_dir) ← account_file root name st;
  if negb (Py.mem name ignore_files) then
    '(created_dir, w) ← create_dir args best_date media_dir (the_world st);
    '(new_name, w) ← copy_file root name created_dir w;
    let st := set_world w st in
    match new_name with
    | Some n =>
        if Py.truthy_str n
        then Ok (log ("Renamed " +:+ name +:+ " to " +:+ n) st)
        else Ok st
    | None => Ok st
    end
  else Ok (incr_ignored_files st).

(** [for name in files]. *)
Fixpoint process_files (args : Args) (root : string) (files : list string) (st : state)
    : outcome state :=
  match files with
  | [] => Ok st
  | name :: files' => st' ← process_file args root name st; process_files args root files' st'
  end.

(** [for root, dirs, files in os.walk(args.source_dir)], over the triples the
    walk yields. *)
Fixpoint main_loop (args : Args) (walk : list (string * list string * list string))
    (st : state) : outcome state :=
  match walk with
  | [] => Ok st
  | (root, dirs, files) :: walk' =>
      st' ← process_files args root files st; main_loop args walk' st'
  end.

(** The state of [main] when the loop starts. *)
Definition initial_state (w : world) : state :=
  {| total_files := 0; ignored_files := 0; total_exif := 0; total_photos := 0;
     total_videos := 0; file_exts := ∅; logged := []; the_world := w |}.

(** The sum of the counts of the histogram. *)
Definition histogram_total (exts : gmap string Z) : Z :=
  map_fold (fun _ n acc => n + acc) 0 exts.

(* ===================================================================== *)
(** * Vocabulary of the statements *)
(* ===================================================================== *)

Definition is_digit (c : ascii) : bool :=
  let n := nat_of_ascii c in (48 <=? n)%nat && (n <=? 57)%nat.

Definition all_digits (s : string) : bool :=
  forallb is_digit (list_ascii_of_string s).

(** The text [YYYY:MM:DD HH:MM:SS]: nineteen characters, digits but for the
    colons and the space. *)
Definition date_form (s : string) : bool :=
  match list_ascii_of_string s with
  | [y1; y2; y3; y4; c1; m1; m2; c2; d1; d2; sp; h1; h2; c3; n1; n2; c4; s1; s2] =>
      forallb is_digit [y1; y2; y3; y4; m1; m2; d1; d2; h1; h2; n1; n2; s1; s2]
      && forallb (Ascii.eqb ":") [c1; c2; c3; c4] && Ascii.eqb sp " "
  | _ => false
  end.

(** The same text, from its six fields. *)
Definition date_text (year month day hour minute second : string) : string :=
  year +:+ ":" +:+ month +:+ ":" +:+ day +:+ " " +:+ hour +:+ ":" +:+ minute +:+ ":" +:+ second.

(** A string of exactly [n] digits. *)
Definition digits_of_width (n : nat) (s : string) : bool :=
  all_digits s && (String.length s =? n)%nat.

(** The fields of a broken-down time are those of a date and an hour. *)
Definition in_range (t : Time.struct_time) : Prop :=
  1 <= Time.tm_mon t <= 12 /\ 1 <= Time.tm_mday t <= 31 /\ 0 <= Time.tm_hour t <= 23
  /\ 0 <= Time.tm_min t <= 59 /\ 0 <= Time.tm_sec t <= 59.

(** A name without separator, and a name that path resolution keeps: what
    [os.walk] lists and what the program makes directories of. *)
Definition no_slash (s : string) : bool :=
  forallb (fun c => negb (Ascii.eqb c "/")) (list_ascii_of_string s).

Definition plain_name (s : string) : bool := is_name s && no_slash s.

(** [l] with [h] appended to its last string. *)
Definition glue_last (l : list string) (h : string) : list string :=
  List.removelast l ++ [List.last l "" +:+ h].

(** The paths [pre/c1], [pre/c1/c2], ... down to [pre/c1/.../cn]. *)
Fixpoint ancestors_from (pre comps : list string) : list (list string) :=
  match comps with
  | [] => []
  | c :: cs => (pre ++ [c]) :: ancestors_from (pre ++ [c]) cs
  end.

(** The directories on the way to the resolved path [q], [q] included. *)
Definition ancestors (q : list string) : list (list string) := ancestors_from [] q.

Definition is_dir_at (fs : gmap (list string) node) (q : list string) : bool :=
  match fs !! q with Some (Dir _) => true | _ => false end.

Definition is_file_at (fs : gmap (list string) node) (q : list string) : bool :=
  match fs !! q with Some (File _ _ _) => true | _ => false end.

(** In a file system every entry lies in a directory that exists. *)
Definition closed_under_parents (fs : gmap (list string) node) : Prop :=
  map_Forall (fun q _ => Forall (fun q' => is_Some (fs !! q')) (ancestors q)) fs.

(** No regular file stands where a directory of the path [q] has to be. *)
Definition way_clear (fs : gmap (list string) node) (q : list string) : Prop :=
  Forall (fun q' => is_file_at fs q' = false) (ancestors q).

#[local] Instance closed_under_parents_dec fs : Decision (closed_under_parents fs).
Proof. unfold closed_under_parents. apply _. Defined.

#[local] Instance way_clear_dec fs q : Decision (way_clear fs q).
Proof. unfold way_clear. apply _. Defined.

(** A name up to its first dot, and from its first dot on. *)
Fixpoint first_segment (s : string) : string :=
  match s with
  | EmptyString => EmptyString
  | String c s' => if Ascii.eqb c "." then EmptyString else String c (first_segment s')
  end.

Fixpoint after_first (s : string) : string :=
  match s with
  | EmptyString => EmptyString
  | String c s' => if Ascii.eqb c "." then s else after_first s'
  end.

Definition no_dot (s : string) : bool :=
  forallb (fun c => negb (Ascii.eqb c ".")) (list_ascii_of_string s).

(** The name with [-k] after its first segment. *)
Definition new_name_of (source_file_name : string) (k : Z) : string :=
  first_segment source_file_name +:+ "-" +:+ Py.str k +:+ after_first source_file_name.

(** The paths [copy_file] tests, in the order of the tests: the one of the
    name itself, then the ones of the names with [-1], [-2], ... *)
Definition candidate (dest_dir source_file_name : string) (k : Z) : string :=
  path_join dest_dir [if k =? 0 then source_file_name else new_name_of source_file_name k].

(** What [copy2] leaves at the destination: the content of the source and
    its modification time. *)
Definition copy_of (w : world) (source : node) : node :=
  match source with
  | File st img data => File {| st_ctime := w_now w; st_mtime := st_mtime st |} img data
  | Dir st => Dir st
  end.

(** The line [main] logs for a file. *)
Definition file_line (had_exif : bool) (best_date full_path : string) : string :=
  (if had_exif then "(Exif) " else "") +:+ best_date +:+ " " +:+ full_path.

(** The category of an extension. *)
Definition category (file_ext : string) : string :=
  if Py.mem file_ext photo_exts then "Pictures"
  else if Py.mem file_ext video_exts then "Videos" else "Other".

(** What the loop body does for every file, ignored or not. *)
Definition accounted (root name : string) (best_date : string) (had_exif : bool)
    (st st' : state) : Prop :=
  let full_path := path_join root [name] in
  let file_ext := Py.lower (splitext full_path).2 in
  total_files st' = total_files st + 1
  /\ file_exts st' = count_ext file_ext (file_exts st)
  /\ total_exif st' = (if had_exif then total_exif st + 1 else total_exif st)
  /\ total_photos st' = (if Py.mem file_ext photo_exts then total_photos st + 1
                         else total_photos st)
  /\ total_videos st' = (if Py.mem file_ext photo_exts then total_videos st
                         else if Py.mem file_ext video_exts then total_videos st + 1
                         else total_videos st)
  /\ exists more, logged st' = logged st ++ file_line had_exif best_date full_path :: more.

(** The invariant of the loop of [main]. *)
Definition counters_consistent (st : state) : Prop :=
  histogram_total (file_exts st) = total_files st
  /\ total_photos st + total_videos st <= total_files st.

(** The instant the fallback of [get_best_date] formats. *)
Definition earlier_timestamp (n : node) : Z :=
  Z.min (st_ctime (node_stat n)) (st_mtime (node_stat n)).

(** A text without colon: [split(":")] leaves it whole. *)
Definition no_colon (s : string) : bool :=
  forallb (fun c => negb (Ascii.eqb c ":")) (list_ascii_of_string s).

(** The last occurrence of [c] in [s], counted from the start. *)
Fixpoint last_index (c : ascii) (s : string) : option nat :=
  match s with
  | EmptyString => None
  | String c' s' =>
      match last_index c s' with
      | Some k => Some (S k)
      | None => if Ascii.eqb c' c then Some O else None
      end
  end.

(** The file names a walk yields, in the order of the loop, and the ones of
    the ignore list among them. *)
Definition walk_names (walk : list (string * list string * list string)) : list string :=
  concat (map (fun entry => snd entry) walk).

Definition ignored_names (names : list string) : list string :=
  List.filter (fun name => Py.mem name ignore_files) names.

(** What the loop has added to the counters and to the log once it has
    processed [names]. *)
Definition counted (names : list string) (st st' : state) : Prop :=
  total_files st' = total_files st + Z.of_nat (length names)
  /\ ignored_files st' = ignored_files st + Z.of_nat (length (ignored_names names))
  /\ total_exif st <= total_exif st' <= total_exif st + Z.of_nat (length names)
  /\ Z.of_nat (length (logged st)) + Z.of_nat (length names)
     <= Z.of_nat (length (logged st'))
     <= Z.of_nat (length (logged st)) + 2 * Z.of_nat (length names)
        - Z.of_nat (length (ignored_names names)).

(** The keys of the histogram are lower-case extensions, the counts are
    positive. *)
Definition histogram_sound (exts : gmap string Z) : Prop :=
  forall key n, exts !! key = Some n ->
    Py.lower key = key /\ (key = "" \/ Py.startswith key "." = true) /\ 1 <= n.

(* ===================================================================== *)
(** * A sample run *)
(* ===================================================================== *)

Module Sample.

(** Created 2020-09-13 12:26:40 UTC, modified 2017-06-19 13:26:16 UTC. *)
Definition times : stat := {| st_ctime := 1600000000; st_mtime := 1497878776 |}.

Definition photo : node :=
  File times (ExifReturns (Some {[ 36867 := "2020:01:15 10:00:00" ]})) "photo".

(** A camera whose clock was never set writes blanks for the digits. *)
Definition undated_photo : node :=
  File times (ExifReturns (Some {[ 36867 := "    :  :     :  :  " ]})) "undated".

Definition clip : node := File times (ExifRaises UnidentifiedImageError) "clip".

Definition junk : node := File times (ExifRaises UnidentifiedImageError) "junk".

(** The working directory holds the source directory [src] with three files,
    the directory [card] with an undated photo, and the empty destination
    directory [out]; the zone is UTC. *)
Definition w : world :=
  {| w_fs :=
       <[ [] := Dir times ]> (
       <[ ["src"] := Dir times ]> (
       <[ ["src"; "IMG_1.jpg"] := photo ]> (
       <[ ["src"; "clip.mp4"] := clip ]> (
       <[ ["src"; "Thumbs.db"] := junk ]> (
       <[ ["card"] := Dir times ]> (
       <[ ["card"; "IMG_2.jpg"] := undated_photo ]> (
       <[ ["out"] := Dir times ]> ∅)))))));
     w_now := 1700000000;
     w_utcoffset := fun _ => 0 |}.

Definition args : Args := {| source_dir := "src"; dest_dir := "out" |}.

(** The world once [out/Pictures/2017/2017-06] is made. *)
Definition made : stat := {| st_ctime := 1700000000; st_mtime := 1700000000 |}.

Definition with_month : world :=
  with_fs w (
    <[ ["out"; "Pictures"; "2017"; "2017-06"] := Dir made ]> (
    <[ ["out"; "Pictures"; "2017"] := Dir made ]> (
    <[ ["out"; "Pictures"] := Dir made ]> (w_fs w)))).

(** What [os.walk] yields for [src], and the run of the loop of [main]. *)
Definition walk : list (string * list string * list string) :=
  [("src", [], ["IMG_1.jpg"; "clip.mp4"; "Thumbs.db"])].

Definition final : state :=
  match main_loop args walk (initial_state w) with
  | Ok st => st
  | _ => initial_state w
  end.

(** The same world with two photos named [IMG_1] in the month. *)
Definition crowded : world :=
  with_fs w (
    <[ ["out"; "Pictures"; "2017"; "2017-06"; "IMG_1.jpg"] := photo ]> (
    <[ ["out"; "Pictures"; "2017"; "2017-06"; "IMG_1-1.jpg"] := photo ]> (w_fs with_month))).

End Sample.

(* ===================================================================== *)
(** * More sample files *)
(* ===================================================================== *)

Module Scenario.

(** Modified 2017-06-19 01:26:16 UTC, twelve hours before [Sample.clip]. *)
Definition dawn : node :=
  File {| st_ctime := 1600000000; st_mtime := 1497835576 |}
    (ExifRaises UnidentifiedImageError) "dawn".

(** A scan whose software wrote a word where the date goes. *)
Definition scan : node :=
  File Sample.times (ExifReturns (Some {[ 36867 := "unknown" ]})) "scan".

(** The sample world with a second clip in [src], and in [card] a second
    photo named [IMG_1.jpg] and the scan. *)
Definition w : world :=
  with_fs Sample.w (
    <[ ["src"; "dawn.mp4"] := dawn ]> (
    <[ ["card"; "IMG_1.jpg"] := Sample.undated_photo ]> (
    <[ ["card"; "scan.jpg"] := scan ]> (w_fs Sample.w)))).

(** The photo of [src] processed once, and once more. *)
Definition once : state :=
  match process_file Sample.args "src" "IMG_1.jpg" (initial_state Sample.w) with
  | Ok st => st
  | _ => initial_state Sample.w
  end.

Definition twice : state :=
  match process_file Sample.args "src" "IMG_1.jpg" once with
  | Ok st => st
  | _ => once
  end.

End Scenario.

(* ===================================================================== *)
(** * Properties of the primitives *)
(* ===================================================================== *)

Example split_date : Py.split ":" "2017:06:19 12:26:16" = ["2017"; "06"; "19 12"; "26"; "16"].
Proof. reflexivity. Qed.

Example str_int : Py.str 0 = "0" /\ Py.str 12 = "12" /\ Py.str (-3) = "-3".
Proof. repeat split; reflexivity. Qed.

Example strftime_noon :
  Time.strftime "%Y:%m:%d %I:%M:%S" (Time.gmtime 1497875176) = "2017:06:19 12:26:16".
Proof. vm_compute. reflexivity. Qed.

(** ** Strings *)

Lemma append_cons (c : ascii) (s t : string) : String c s +:+ t = String c (s +:+ t).
Proof. reflexivity. Qed.

Lemma append_nil_l (t : string) : "" +:+ t = t.
Proof. reflexivity. Qed.

Lemma append_nil_r (s : string) : s +:+ "" = s.
Proof. induction s as [|c s IH]; [reflexivity | rewrite append_cons; f_equal; exact IH]. Qed.

Lemma append_assoc (s1 s2 s3 : string) : (s1 +:+ s2) +:+ s3 = s1 +:+ (s2 +:+ s3).
Proof.
  induction s1 as [|c s1 IH]; [reflexivity |].
  rewrite !append_cons. cbn [list_ascii_of_string app]. f_equal; exact IH.
Qed.

Lemma chars_append (s1 s2 : string) :
  list_ascii_of_string (s1 +:+ s2) = list_ascii_of_string s1 ++ list_ascii_of_string s2.
Proof.
  induction s1 as [|c s1 IH]; [reflexivity |].
  rewrite !append_cons. cbn [list_ascii_of_string app]. f_equal; exact IH.
Qed.

Lemma chars_length (s : string) : length (list_ascii_of_string s) = String.length s.
Proof. induction s as [|c s IH]; [reflexivity | cbn; f_equal; exact IH]. Qed.

Lemma chars_inj (s1 s2 : string) :
  list_ascii_of_string s1 = list_ascii_of_string s2 -> s1 = s2.
Proof.
  intros H. rewrite <- (string_of_list_ascii_of_string s1), H.
  apply string_of_list_ascii_of_string.
Qed.

Lemma append_inv_tail (s1 s2 t : string) : s1 +:+ t = s2 +:+ t -> s1 = s2.
Proof.
  intros H. apply chars_inj. apply (f_equal list_ascii_of_string) in H.
  rewrite !chars_append in H. exact (app_inv_tail _ _ _ H).
Qed.

Lemma append_inv_head (s t1 t2 : string) : s +:+ t1 = s +:+ t2 -> t1 = t2.
Proof.
  induction s as [|c s IH]; intros H; [exact H |].
  rewrite !append_cons in H. injection H; auto.
Qed.

Lemma split_nonempty sep s : Py.split sep s <> [].
Proof.
  destruct s as [|c s]; cbn; [discriminate|].
  destruct (Ascii.eqb c sep); [discriminate|]. destruct (Py.split sep s); discriminate.
Qed.

Lemma split_append sep s t :
  Py.split sep (s +:+ t) =
  glue_last (Py.split sep s) (hd "" (Py.split sep t)) ++ tl (Py.split sep t).
Proof.
  induction s as [|c s IH].
  - rewrite append_nil_l. cbn. pose proof (split_nonempty sep t).
    destruct (Py.split sep t); [congruence | reflexivity].
  - rewrite append_cons. cbn [Py.split]. rewrite IH.
    pose proof (split_nonempty sep s) as Hs.
    destruct (Py.split sep s) as [|p ps]; [congruence|].
    destruct (Ascii.eqb c sep).
    + unfold glue_last. cbn [List.removelast List.last]. destruct ps; reflexivity.
    + unfold glue_last. destruct ps as [|p' ps]; cbn; reflexivity.
Qed.

Lemma split_no_slash s : no_slash s = true -> Py.split "/" s = [s].
Proof.
  induction s as [|c s IH]; [reflexivity|]. unfold no_slash. cbn.
  intros [Hc Hs]%andb_true_iff. apply negb_true_iff in Hc. rewrite Hc.
  rewrite (IH Hs). reflexivity.
Qed.

Lemma split_endswith s :
  Py.endswith s "/" = true -> exists i, Py.split "/" s = i ++ [""].
Proof.
  induction s as [|c s IH]; [discriminate|].
  destruct s as [|c' s'].
  - cbn. intros ->. exists [""]. reflexivity.
  - intros H. change (Py.endswith (String c' s') "/" = true) in H.
    destruct (IH H) as [i Hi]. cbn [Py.split] in *. rewrite Hi.
    destruct (Ascii.eqb c "/").
    + exists ("" :: i). reflexivity.
    + destruct i as [|p i]; cbn.
      * exfalso. pose proof (split_nonempty "/" s') as Hne. cbn in Hi.
        destruct (Ascii.eqb c' "/"), (Py.split "/" s'); congruence.
      * exists (String c p :: i). reflexivity.
Qed.

(** ** Outcomes, numbers and dates *)

Lemma Ok_bind {A B : Type} (a : A) (k : A -> outcome B) : Ok a ≫= k = k a.
Proof. reflexivity. Qed.

Lemma Ok_pair_inv {A B : Type} (a a' : A) (b b' : B) :
  Ok (a, b) = Ok (a', b') -> a = a' /\ b = b'.
Proof. intros H. injection H as -> ->. split; reflexivity. Qed.

Lemma bind_Ok {A B : Type} (m : outcome A) (k : A -> outcome B) (b : B) :
  m ≫= k = Ok b -> exists a, m = Ok a /\ k a = Ok b.
Proof. destruct m as [a| |]; simpl; try discriminate. eauto. Qed.

Lemma width_check (f : Z -> string) (n : nat) (lo len : Z) :
  forallb (fun z => digits_of_width n (f z)) (seqZ lo len) = true ->
  forall z, lo <= z < lo + len -> digits_of_width n (f z) = true.
Proof.
  intros Hall z Hz. rewrite forallb_forall in Hall. apply Hall.
  apply list_elem_of_In, elem_of_seqZ. lia.
Qed.

Lemma pad2_width n : 0 <= n < 100 -> digits_of_width 2 (Time.pad2 n) = true.
Proof. apply (width_check Time.pad2 2 0 100). vm_compute. reflexivity. Qed.

Lemma year_width y : 1000 <= y <= 9999 -> digits_of_width 4 (Py.str y) = true.
Proof.
  intros Hy. apply (width_check Py.str 4 1000 9000); [vm_compute; reflexivity | lia].
Qed.

Lemma day_of_year_range doe :
  0 <= doe < 146097 ->
  let yoe := (doe - doe / 1460 + doe / 36524 - doe / 146096) / 365 in
  0 <= doe - (365 * yoe + yoe / 4 - yoe / 100) <= 365.
Proof. intros H yoe. subst yoe. Z.div_mod_to_equations. lia. Qed.

Lemma month_day_range doy :
  0 <= doy <= 365 ->
  let mp := (5 * doy + 2) / 153 in
  1 <= (if mp <? 10 then mp + 3 else mp - 9) <= 12
  /\ 1 <= doy - (153 * mp + 2) / 5 + 1 <= 31.
Proof.
  intros H mp. subst mp.
  destruct (Z.ltb_spec ((5 * doy + 2) / 153) 10); Z.div_mod_to_equations; lia.
Qed.

Lemma civil_from_days_range days :
  1 <= (Time.civil_from_days days).1.2 <= 12 /\ 1 <= (Time.civil_from_days days).2 <= 31.
Proof.
  unfold Time.civil_from_days. cbv zeta. cbn [fst snd].
  set (doe := days + 719468 - (days + 719468) / 146097 * 146097).
  assert (Hdoe : 0 <= doe < 146097) by (subst doe; Z.div_mod_to_equations; lia).
  pose proof (day_of_year_range doe Hdoe) as Hdoy. cbv zeta in Hdoy.
  exact (month_day_range _ Hdoy).
Qed.

Lemma gmtime_range secs : in_range (Time.gmtime secs).
Proof.
  unfold in_range, Time.gmtime. pose proof (civil_from_days_range (secs / 86400)) as Hc.
  destruct (Time.civil_from_days (secs / 86400)) as [[y m] d]. cbn in *.
  repeat split; try tauto; Z.div_mod_to_equations; lia.
Qed.

Lemma hour12_range h : 1 <= Time.hour12 h <= 12.
Proof.
  unfold Time.hour12. destruct (Z.eqb_spec (h mod 12) 0); [lia |].
  Z.div_mod_to_equations; lia.
Qed.

Lemma strftime_program_format t :
  Time.strftime "%Y:%m:%d %I:%M:%S" t =
  date_text (Py.str (Time.tm_year t)) (Time.pad2 (Time.tm_mon t)) (Time.pad2 (Time.tm_mday t))
    (Time.pad2 (Time.hour12 (Time.tm_hour t))) (Time.pad2 (Time.tm_min t))
    (Time.pad2 (Time.tm_sec t)).
Proof.
  unfold date_text. cbn [Time.strftime Ascii.eqb Bool.eqb]. cbn [Time.directive Ascii.eqb Bool.eqb].
  rewrite append_nil_r. reflexivity.
Qed.

Lemma digits_of_width_chars n s :
  digits_of_width n s = true ->
  length (list_ascii_of_string s) = n /\ forallb is_digit (list_ascii_of_string s) = true.
Proof.
  unfold digits_of_width, all_digits. rewrite andb_true_iff, Nat.eqb_eq, chars_length. tauto.
Qed.

Lemma date_text_form y m d h n s :
  digits_of_width 4 y = true -> digits_of_width 2 m = true -> digits_of_width 2 d = true ->
  digits_of_width 2 h = true -> digits_of_width 2 n = true -> digits_of_width 2 s = true ->
  date_form (date_text y m d h n s) = true.
Proof.
  intros Hy Hm Hd Hh Hn Hs.
  apply digits_of_width_chars in Hy, Hm, Hd, Hh, Hn, Hs.
  unfold date_form, date_text. rewrite !chars_append.
  destruct Hy as [Ly Dy], Hm as [Lm Dm], Hd as [Ld Dd], Hh as [Lh Dh], Hn as [Ln Dn],
    Hs as [Ls Ds].
  destruct (list_ascii_of_string y) as [|y1 [|y2 [|y3 [|y4 [|]]]]]; try discriminate.
  destruct (list_ascii_of_string m) as [|m1 [|m2 [|]]]; try discriminate.
  destruct (list_ascii_of_string d) as [|d1 [|d2 [|]]]; try discriminate.
  destruct (list_ascii_of_string h) as [|h1 [|h2 [|]]]; try discriminate.
  destruct (list_ascii_of_string n) as [|n1 [|n2 [|]]]; try discriminate.
  destruct (list_ascii_of_string s) as [|s1 [|s2 [|]]]; try discriminate.
  cbn [forallb] in *. cbn [list_ascii_of_string app].
  repeat match goal with H : _ && _ = true |- _ => apply andb_true_iff in H; destruct H end.
  repeat match goal with H : is_digit _ = true |- _ => rewrite H; clear H end.
  reflexivity.
Qed.

Lemma program_format_form (t : Time.struct_time) :
  in_range t ->
  (exists hour, digits_of_width 2 hour = true /\
     date_text (Py.str (Time.tm_year t)) (Time.pad2 (Time.tm_mon t))
       (Time.pad2 (Time.tm_mday t)) (Time.pad2 (Time.hour12 (Time.tm_hour t)))
       (Time.pad2 (Time.tm_min t)) (Time.pad2 (Time.tm_sec t))
     = date_text (Py.str (Time.tm_year t)) (Time.pad2 (Time.tm_mon t))
         (Time.pad2 (Time.tm_mday t)) hour (Time.pad2 (Time.tm_min t))
         (Time.pad2 (Time.tm_sec t)))
  /\ (1000 <= Time.tm_year t <= 9999 ->
      date_form (date_text (Py.str (Time.tm_year t)) (Time.pad2 (Time.tm_mon t))
                   (Time.pad2 (Time.tm_mday t)) (Time.pad2 (Time.hour12 (Time.tm_hour t)))
                   (Time.pad2 (Time.tm_min t)) (Time.pad2 (Time.tm_sec t))) = true).
Proof.
  intros (Rm & Rd & Rh & Rn & Rs).
  pose proof (hour12_range (Time.tm_hour t)) as R12.
  split.
  - exists (Time.pad2 (Time.hour12 (Time.tm_hour t))). split; [|reflexivity].
    apply pad2_width. lia.
  - intros Hy. apply date_text_form; [apply year_width; lia | apply pad2_width; lia ..].
Qed.

(* ===================================================================== *)
(** * The date resolver *)
(* ===================================================================== *)

Lemma lookup_nonempty (tags : gmap Z string) (key : Z) (value : string) :
  tags !! key = Some value -> bool_decide (tags = ∅) = false.
Proof.
  intros H. apply bool_decide_eq_false. intros ->. rewrite lookup_empty in H. discriminate.
Qed.

Lemma earlier_timestamp_spec (created_date modified_date : Z) :
  (if modified_date <? created_date then modified_date else created_date)
  = Z.min created_date modified_date.
Proof. destruct (Z.ltb_spec modified_date created_date); lia. Qed.

(** C1: when the metadata of the file is readable and holds the tag 36867,
    [get_best_date] returns the value of that tag and the flag [True]. *)
Theorem get_best_date_exif (w : world) (full_path : string)
    (tags : gmap Z string) (value : string) :
  Image_getexif w full_path = Ok (Some tags) ->
  tags !! 36867 = Some value ->
  get_best_date w full_path = Ok (value, true).
Proof.
  intros Hread Htag. unfold get_best_date. rewrite Hread.
  cbn [try_except]. rewrite Ok_bind. cbn [truthy_info info_contains info_get].
  rewrite (lookup_nonempty _ _ _ Htag), Htag.
  rewrite bool_decide_eq_true_2 by eauto. reflexivity.
Qed.

Lemma get_best_date_exif_witness :
  get_best_date Sample.w "src/IMG_1.jpg" = Ok ("2020:01:15 10:00:00", true).
Proof.
  apply (get_best_date_exif Sample.w "src/IMG_1.jpg" {[ 36867 := "2020:01:15 10:00:00" ]}).
  - reflexivity.
  - reflexivity.
Defined.

(** The fallback branch, for a path that exists. *)
Lemma get_best_date_else (w : world) (full_path : string) (n : node)
    (info : option (gmap Z string)) :
  lookup_path w full_path = Some n ->
  try_except (Image_getexif w full_path) None = Ok info ->
  truthy_info info && info_contains info 36867 = false ->
  get_best_date w full_path =
  Ok (Time.strftime "%Y:%m:%d %I:%M:%S"
        (Time.localtime (w_utcoffset w) (earlier_timestamp n)), false).
Proof.
  intros Hn Hinfo Hno. unfold get_best_date. rewrite Hinfo, Ok_bind, Hno.
  unfold getctime, getmtime. rewrite Hn, !Ok_bind.
  rewrite earlier_timestamp_spec. reflexivity.
Qed.

(** C2: for a file without a readable tag 36867 (the read raises, returns
    [None], or returns tags without it) [get_best_date] raises nothing: it
    returns the earlier of the creation and modification times, formatted in
    local time, and the flag [False]. *)
Theorem get_best_date_fallback (w : world) (full_path : string) (n : node) :
  lookup_path w full_path = Some n ->
  (forall tags, Image_getexif w full_path = Ok (Some tags) -> tags !! 36867 = None) ->
  get_best_date w full_path =
  Ok (Time.strftime "%Y:%m:%d %I:%M:%S"
        (Time.localtime (w_utcoffset w)
           (Z.min (st_ctime (node_stat n)) (st_mtime (node_stat n)))), false).
Proof.
  intros Hn Hno.
  destruct (Image_getexif w full_path) as [[tags|]|e|] eqn:Hread.
  - apply (get_best_date_else w full_path n (Some tags) Hn).
    + rewrite Hread. reflexivity.
    + cbn [truthy_info info_contains]. rewrite (Hno tags eq_refl).
      rewrite (bool_decide_eq_false_2 (is_Some None)); [apply andb_false_r|].
      intros [v Hv]. discriminate.
  - apply (get_best_date_else w full_path n None Hn); [rewrite Hread|]; reflexivity.
  - apply (get_best_date_else w full_path n None Hn); [rewrite Hread|]; reflexivity.
  - unfold Image_getexif in Hread. rewrite Hn in Hread.
    destruct n as [st|st [e|info] data]; discriminate.
Qed.

Lemma get_best_date_fallback_witness :
  get_best_date Sample.w "src/clip.mp4" =
  Ok (Time.strftime "%Y:%m:%d %I:%M:%S" (Time.localtime (fun _ => 0) 1497878776), false).
Proof.
  apply (get_best_date_fallback Sample.w "src/clip.mp4" Sample.clip).
  - reflexivity.
  - intros tags H. vm_compute in H. discriminate H.
Defined.

(** C4, as stated, fails: the value of the tag is returned as it is, and a
    tag of blanks (a camera without a set clock) is not a date text. *)
Lemma get_best_date_form_counterexample :
  get_best_date Sample.w "card/IMG_2.jpg" = Ok ("    :  :     :  :  ", true)
  /\ date_form "    :  :     :  :  " = false.
Proof. split; reflexivity. Qed.

(** The fallback prints the hour with [%I], on the 12-hour clock: a file
    last modified at 13:26:16 is dated 01:26:16. *)
Example get_best_date_afternoon :
  Time.tm_hour (Time.localtime (w_utcoffset Sample.w) (earlier_timestamp Sample.clip)) = 13
  /\ get_best_date Sample.w "src/clip.mp4" = Ok ("2017:06:19 01:26:16", false).
Proof. split; vm_compute; reflexivity. Qed.

(** C4, amended: in the EXIF case the text returned is the value of the tag,
    whatever its form; in the fallback case it is made of the year and of the
    two-digit month, day, minute and second of the local time of the earlier
    timestamp, around a two-digit hour field, and it has the form
    [YYYY:MM:DD HH:MM:SS] when that year has four digits. *)
Theorem get_best_date_text (w : world) (full_path best_date : string) (exif : bool) :
  get_best_date w full_path = Ok (best_date, exif) ->
  if exif then
    exists tags, Image_getexif w full_path = Ok (Some tags) /\ tags !! 36867 = Some best_date
  else
    exists n, lookup_path w full_path = Some n /\
      let t := Time.localtime (w_utcoffset w) (earlier_timestamp n) in
      (exists hour, digits_of_width 2 hour = true /\
         best_date = date_text (Py.str (Time.tm_year t)) (Time.pad2 (Time.tm_mon t))
                       (Time.pad2 (Time.tm_mday t)) hour (Time.pad2 (Time.tm_min t))
                       (Time.pad2 (Time.tm_sec t)))
      /\ (1000 <= Time.tm_year t <= 9999 -> date_form best_date = true).
Proof.
  unfold get_best_date. intros H.
  apply bind_Ok in H as (info & Hinfo & H).
  destruct (truthy_info info && info_contains info 36867) eqn:Htest.
  - apply bind_Ok in H as (v & Hv & H). injection H as <- <-.
    destruct info as [tags|]; [|discriminate]. exists tags.
    unfold info_get in Hv. destruct (tags !! 36867) eqn:Htag; [|discriminate].
    injection Hv as ->. split; [|reflexivity].
    destruct (Image_getexif w full_path) as [i|e|]; cbn in Hinfo; congruence.
  - apply bind_Ok in H as (c & Hc & H). apply bind_Ok in H as (m & Hm & H).
    rewrite earlier_timestamp_spec, strftime_program_format in H.
    apply Ok_pair_inv in H as [Hd He]. subst exif.
    unfold getctime in Hc. unfold getmtime in Hm.
    destruct (lookup_path w full_path) as [n|] eqn:Hn; [|discriminate].
    injection Hc as <-. injection Hm as <-. exists n. split; [reflexivity|].
    fold (earlier_timestamp n) in Hd. subst best_date.
    apply program_format_form, gmtime_range.
Qed.

Lemma get_best_date_text_witness :
  exists n, lookup_path Sample.w "src/clip.mp4" = Some n /\
    let t := Time.localtime (w_utcoffset Sample.w) (earlier_timestamp n) in
    (exists hour, digits_of_width 2 hour = true /\
       "2017:06:19 01:26:16" =
       date_text (Py.str (Time.tm_year t)) (Time.pad2 (Time.tm_mon t))
         (Time.pad2 (Time.tm_mday t)) hour (Time.pad2 (Time.tm_min t))
         (Time.pad2 (Time.tm_sec t)))
    /\ (1000 <= Time.tm_year t <= 9999 -> date_form "2017:06:19 01:26:16" = true).
Proof.
  apply (get_best_date_text Sample.w "src/clip.mp4" "2017:06:19 01:26:16" false).
  vm_compute. reflexivity.
Defined.

(* ===================================================================== *)
(** * The directory namer *)
(* ===================================================================== *)

(** ** Paths *)

Lemma plain_name_inv b :
  plain_name b = true -> is_name b = true /\ no_slash b = true /\ Py.startswith b "/" = false.
Proof.
  unfold plain_name. intros [Hn Hs]%andb_true_iff. repeat split; try assumption.
  destruct b as [|c b]; [reflexivity|]. unfold no_slash in Hs. cbn in Hs.
  apply andb_true_iff in Hs as [Hc _]. cbn. now apply negb_true_iff in Hc.
Qed.

Lemma startswith_append a x c :
  Py.truthy_str a = true -> Py.startswith (a +:+ x) c = Py.startswith a c.
Proof. destruct a; [discriminate | reflexivity]. Qed.

Lemma components_append_name a b :
  plain_name b = true ->
  components (a +:+ "/" +:+ b) = components a ++ [b].
Proof.
  intros (Hn & Hs & _)%plain_name_inv. unfold components.
  rewrite split_append. change ("/" +:+ b) with (String "/" b). cbn [Py.split Ascii.eqb Bool.eqb].
  rewrite (split_no_slash b Hs). cbn [hd tl]. unfold glue_last.
  rewrite append_nil_r, <- app_removelast_last by apply split_nonempty.
  rewrite List.filter_app. cbn. rewrite Hn. reflexivity.
Qed.

Lemma components_append_slash a b :
  plain_name b = true -> Py.endswith a "/" = true ->
  components (a +:+ b) = components a ++ [b].
Proof.
  intros (Hn & Hs & _)%plain_name_inv [i Hi]%split_endswith. unfold components.
  rewrite split_append, (split_no_slash b Hs), Hi. cbn [hd tl]. unfold glue_last.
  rewrite removelast_last, last_last, app_nil_r, append_nil_l.
  rewrite !List.filter_app. cbn. rewrite Hn. rewrite app_nil_r. reflexivity.
Qed.

Lemma resolve_join_name a b :
  plain_name b = true -> resolve (path_join a [b]) = resolve a ++ [b].
Proof.
  intros Hb. pose proof (plain_name_inv b Hb) as (Hn & Hs & Hst).
  unfold path_join. rewrite Hst. unfold resolve.
  destruct (Py.truthy_str a) eqn:Ha; cbn [negb orb].
  - destruct (Py.endswith a "/") eqn:He.
    + rewrite startswith_append, components_append_slash by assumption.
      now rewrite app_assoc.
    + rewrite startswith_append, components_append_name by assumption.
      now rewrite app_assoc.
  - destruct a; [|discriminate]. rewrite append_nil_l, Hst. cbn.
    unfold components. rewrite (split_no_slash b Hs). cbn. now rewrite Hn.
Qed.

Lemma path_join_app a p1 p2 : path_join a (p1 ++ p2) = path_join (path_join a p1) p2.
Proof. revert a. induction p1 as [|b p1 IH]; intros a; [reflexivity|]. cbn. apply IH. Qed.

Lemma truthy_append_r a b : Py.truthy_str b = true -> Py.truthy_str (a +:+ b) = true.
Proof. destruct a; [now rewrite append_nil_l | reflexivity]. Qed.

Lemma path_join_truthy a b : Py.truthy_str b = true -> Py.truthy_str (path_join a [b]) = true.
Proof.
  intros Hb. unfold path_join.
  destruct (Py.startswith b "/"); [assumption|].
  destruct (_ || _); repeat apply truthy_append_r; assumption.
Qed.

Lemma no_slash_append s t : no_slash (s +:+ t) = no_slash s && no_slash t.
Proof. unfold no_slash. rewrite chars_append. apply forallb_app. Qed.

Lemma is_name_spec s : is_name s = true <-> s <> "" /\ s <> ".".
Proof.
  unfold is_name. rewrite andb_true_iff, !negb_true_iff, !String.eqb_neq. reflexivity.
Qed.

Lemma plain_name_dash y m :
  plain_name y = true -> no_slash m = true -> plain_name (y +:+ "-" +:+ m) = true.
Proof.
  intros (Hn & Hs & _)%plain_name_inv Hm. unfold plain_name.
  rewrite !no_slash_append, Hs, Hm. cbn [andb]. rewrite andb_true_r.
  apply is_name_spec. apply is_name_spec in Hn as [Hn _].
  destruct y as [|c y]; [congruence|]. rewrite append_cons.
  split; [discriminate|]. destruct y; rewrite ?append_cons, ?append_nil_l; discriminate.
Qed.

(** ** [mkdirs] *)

Lemma ancestors_from_longer pre comps q :
  q ∈ ancestors_from pre comps -> (length pre < length q)%nat.
Proof.
  revert pre. induction comps as [|c cs IH]; intros pre; cbn.
  - intros H. inversion H.
  - intros [->|H]%elem_of_cons.
    + rewrite length_app. cbn. lia.
    + apply IH in H. rewrite length_app in H. cbn in H. lia.
Qed.

Lemma ancestors_from_app pre cs1 cs2 :
  ancestors_from pre (cs1 ++ cs2) = ancestors_from pre cs1 ++ ancestors_from (pre ++ cs1) cs2.
Proof.
  revert pre. induction cs1 as [|c cs1 IH]; intros pre; cbn.
  - now rewrite app_nil_r.
  - rewrite IH, <- app_assoc. reflexivity.
Qed.

Lemma mkdirs_Ok now comps : forall fs pre fs',
  mkdirs now fs pre comps = Ok fs' ->
  Forall (fun q => is_dir_at fs' q = true) (ancestors_from pre comps)
  /\ (forall q n, fs !! q = Some n -> fs' !! q = Some n)
  /\ (forall q, q ∉ ancestors_from pre comps -> fs' !! q = fs !! q).
Proof.
  induction comps as [|c cs IH]; intros fs pre fs' Hrun; cbn in *.
  - injection Hrun as <-. repeat split; auto.
  - destruct (fs !! (pre ++ [c])) as [[st|st img data]|] eqn:Hlook; [|discriminate|].
    + destruct (IH _ _ _ Hrun) as (Hdirs & Hkeep & Hout).
      repeat split; [|assumption|].
      * apply Forall_cons. split; [|assumption]. unfold is_dir_at.
        now rewrite (Hkeep _ _ Hlook).
      * intros q Hq'. apply Hout. intros Hin. apply Hq'. now right.
    + destruct (IH _ _ _ Hrun) as (Hdirs & Hkeep & Hout).
      repeat split.
      * apply Forall_cons. split; [|assumption]. unfold is_dir_at.
        rewrite (Hkeep (pre ++ [c]) (Dir {| st_ctime := now; st_mtime := now |})); [reflexivity|].
        apply lookup_insert_eq.
      * intros q n Hn. apply Hkeep. rewrite lookup_insert_ne; [assumption|].
        intros <-. congruence.
      * intros q Hq'. rewrite Hout.
        -- apply lookup_insert_ne. intros <-. apply Hq'. now left.
        -- intros Hin. apply Hq'. now right.
Qed.

Lemma mkdirs_succeeds now comps : forall fs pre,
  Forall (fun q => is_file_at fs q = false) (ancestors_from pre comps) ->
  exists fs', mkdirs now fs pre comps = Ok fs'.
Proof.
  induction comps as [|c cs IH]; intros fs pre Hclear; cbn in *.
  - exists fs. reflexivity.
  - apply Forall_cons in Hclear as [Hq Hrest]. unfold is_file_at in Hq.
    destruct (fs !! (pre ++ [c])) as [[st|st img data]|] eqn:Hlook; [|discriminate|].
    + apply IH, Hrest.
    + apply IH. rewrite Forall_forall in Hrest |- *. intros q Hin. specialize (Hrest q Hin).
      unfold is_file_at in *. rewrite lookup_insert_ne; [assumption|].
      intros <-. apply ancestors_from_longer in Hin. lia.
Qed.

Lemma ancestors_self q : q <> [] -> q ∈ ancestors q.
Proof.
  intros Hq. destruct (exists_last Hq) as (i & c & ->). unfold ancestors.
  rewrite ancestors_from_app. cbn. set_solver.
Qed.

(** ** [create_dir] *)

Lemma create_dir_unfold args date_string media_dir w year month rest :
  Py.split ":" date_string = year :: month :: rest ->
  create_dir args date_string media_dir w =
  let new_dir := path_join (dest_dir args) [media_dir; year; year +:+ "-" +:+ month] in
  (if negb (path_exists w new_dir) then makedirs w new_dir else Ok w) ≫=
    (fun w' => Ok (new_dir, w')).
Proof. intros H. unfold create_dir. rewrite H. reflexivity. Qed.

Lemma create_dir_parts args date_string media_dir w r :
  create_dir args date_string media_dir w = Ok r ->
  exists year month rest, Py.split ":" date_string = year :: month :: rest.
Proof.
  unfold create_dir. destruct (Py.split ":" date_string) as [|y [|m rest]]; try discriminate.
  eauto.
Qed.

Lemma new_dir_truthy a media year month :
  Py.truthy_str (path_join a [media; year; year +:+ "-" +:+ month]) = true.
Proof.
  change [media; year; year +:+ "-" +:+ month] with ([media; year] ++ [year +:+ "-" +:+ month]).
  rewrite path_join_app. apply path_join_truthy, truthy_append_r. reflexivity.
Qed.

Lemma makedirs_Ok w name w' :
  makedirs w name = Ok w' ->
  Py.truthy_str name = true
  /\ w' = with_fs w (w_fs w')
  /\ Forall (fun q => is_dir_at (w_fs w') q = true) (ancestors (resolve name))
  /\ (forall q n, w_fs w !! q = Some n -> w_fs w' !! q = Some n)
  /\ (forall q, q ∉ ancestors (resolve name) -> w_fs w' !! q = w_fs w !! q).
Proof.
  unfold makedirs. destruct (Py.truthy_str name); [|discriminate]. cbn [negb].
  destruct (path_exists w name); [discriminate|].
  intros (fs' & Hrun & H)%bind_Ok. injection H as <-.
  split; [reflexivity|]. split; [reflexivity|]. cbn [w_fs with_fs].
  exact (mkdirs_Ok _ _ _ _ _ Hrun).
Qed.

Lemma path_exists_dir w name :
  Py.truthy_str name = true -> is_dir_at (w_fs w) (resolve name) = true ->
  path_exists w name = true.
Proof.
  intros Ht. unfold is_dir_at, path_exists, lookup_path. rewrite Ht.
  destruct (w_fs w !! resolve name) as [[|]|]; congruence.
Qed.

Lemma create_dir_existing args date_string media_dir w year month rest :
  Py.split ":" date_string = year :: month :: rest ->
  path_exists w (path_join (dest_dir args) [media_dir; year; year +:+ "-" +:+ month]) = true ->
  create_dir args date_string media_dir w =
  Ok (path_join (dest_dir args) [media_dir; year; year +:+ "-" +:+ month], w).
Proof.
  intros Hparts Hex. rewrite (create_dir_unfold _ _ _ _ _ _ _ Hparts). cbv zeta.
  rewrite Hex. reflexivity.
Qed.

(** C7: [create_dir] is idempotent.  When a call returns a path, a second
    call with the same arguments raises nothing, returns the same path and
    leaves the world as the first call left it; and a first call that finds
    the directory changes nothing either. *)
Theorem create_dir_idempotent (args : Args) (date_string media_dir : string) (w w' : world)
    (new_dir : string) :
  create_dir args date_string media_dir w = Ok (new_dir, w') ->
  create_dir args date_string media_dir w' = Ok (new_dir, w')
  /\ (path_exists w new_dir = true -> w' = w).
Proof.
  intros Hfirst.
  destruct (create_dir_parts _ _ _ _ _ Hfirst) as (year & month & rest & Hparts).
  rewrite (create_dir_unfold _ _ _ w _ _ _ Hparts) in Hfirst.
  rewrite (create_dir_unfold _ _ _ w' _ _ _ Hparts). cbv zeta in *.
  set (p := path_join (dest_dir args) [media_dir; year; year +:+ "-" +:+ month]) in *.
  apply bind_Ok in Hfirst as (w1 & Hmk & Hret).
  apply Ok_pair_inv in Hret as [<- <-].
  destruct (path_exists w p) eqn:Hex; cbn [negb] in Hmk.
  - injection Hmk as <-. rewrite Hex. split; reflexivity.
  - split; [|discriminate].
    destruct (makedirs_Ok _ _ _ Hmk) as (Ht & Hw1 & Hdirs & _ & _).
    destruct (resolve p) as [|c q] eqn:Hq.
    + assert (w1 = with_fs w (w_fs w)) as ->.
      { unfold makedirs in Hmk. rewrite Ht, Hex, Hq in Hmk. cbn in Hmk. congruence. }
      assert (Hex' : path_exists (with_fs w (w_fs w)) p = false) by exact Hex.
      rewrite Hex'. cbn [negb]. unfold makedirs. rewrite Ht, Hex', Hq. reflexivity.
    + rewrite Forall_forall in Hdirs.
      rewrite (path_exists_dir w1 p Ht); [reflexivity|].
      rewrite Hq. apply Hdirs, ancestors_self. discriminate.
Qed.

Lemma resolve_new_dir a media year month :
  plain_name media = true -> plain_name year = true -> no_slash month = true ->
  resolve (path_join a [media; year; year +:+ "-" +:+ month])
  = resolve a ++ [media; year; year +:+ "-" +:+ month].
Proof.
  intros Hm Hy Hmo.
  change [media; year; year +:+ "-" +:+ month]
    with ([media] ++ [year] ++ [year +:+ "-" +:+ month]) at 1.
  rewrite !path_join_app, !resolve_join_name by auto using plain_name_dash.
  rewrite <- !app_assoc. reflexivity.
Qed.

Lemma ancestors_exist fs q :
  closed_under_parents fs -> is_Some (fs !! q) ->
  Forall (fun q' => is_Some (fs !! q')) (ancestors q).
Proof. intros Hclosed [n Hn]. exact (Hclosed q n Hn). Qed.

Lemma dirs_of_clear fs l :
  Forall (fun q => is_Some (fs !! q)) l -> Forall (fun q => is_file_at fs q = false) l ->
  Forall (fun q => is_dir_at fs q = true) l.
Proof.
  rewrite !Forall_forall. intros Hsome Hclear q Hq.
  specialize (Hsome q Hq). specialize (Hclear q Hq). unfold is_file_at, is_dir_at in *.
  destruct Hsome as [n Hn]. rewrite Hn in *. destruct n; congruence.
Qed.

(** C8: for a date text [year:month:...], a category and a year that are
    plain names and a month without separator, in a file system where no
    regular file stands on the way, [create_dir] returns the path
    [root/category/year/year-month]; afterwards every directory on the way to
    it exists, and the entries that existed are as they were.  In particular
    the date [2017:06:19 12:26:16] and the category [Pictures] give a path
    whose last two segments are [2017] and [2017-06]. *)
Theorem create_dir_path (args : Args) (date_string media_dir : string) (w : world)
    (year month : string) (rest : list string) :
  Py.split ":" date_string = year :: month :: rest ->
  plain_name media_dir = true -> plain_name year = true -> no_slash month = true ->
  closed_under_parents (w_fs w) ->
  way_clear (w_fs w) (resolve (dest_dir args) ++ [media_dir; year; year +:+ "-" +:+ month]) ->
  let new_dir := path_join (dest_dir args) [media_dir; year; year +:+ "-" +:+ month] in
  exists w', create_dir args date_string media_dir w = Ok (new_dir, w')
    /\ resolve new_dir = resolve (dest_dir args) ++ [media_dir; year; year +:+ "-" +:+ month]
    /\ Forall (fun q => is_dir_at (w_fs w') q = true) (ancestors (resolve new_dir))
    /\ (forall q n, w_fs w !! q = Some n -> w_fs w' !! q = Some n)
    /\ (forall q, q ∉ ancestors (resolve new_dir) -> w_fs w' !! q = w_fs w !! q)
    /\ (date_string = "2017:06:19 12:26:16" -> media_dir = "Pictures" ->
        resolve new_dir = (resolve (dest_dir args) ++ ["Pictures"]) ++ ["2017"; "2017-06"]).
Proof.
  intros Hparts Hmedia Hyear Hmonth Hclosed Hclear new_dir.
  pose proof (resolve_new_dir (dest_dir args) _ _ _ Hmedia Hyear Hmonth) as Hres.
  assert (Ht : Py.truthy_str new_dir = true) by apply new_dir_truthy.
  fold new_dir in Hres. rewrite <- Hres in Hclear.
  rewrite (create_dir_unfold _ _ _ _ _ _ _ Hparts). cbv zeta. fold new_dir.
  assert (Hlast : date_string = "2017:06:19 12:26:16" -> media_dir = "Pictures" ->
            resolve new_dir = (resolve (dest_dir args) ++ ["Pictures"]) ++ ["2017"; "2017-06"]).
  { intros -> ->. cbn in Hparts. injection Hparts as <- <- _.
    rewrite Hres, <- app_assoc. reflexivity. }
  destruct (path_exists w new_dir) eqn:Hex; cbn [negb].
  - exists w. repeat split; try assumption; try reflexivity; [|auto].
    apply dirs_of_clear; [|exact Hclear]. apply ancestors_exist; [assumption|].
    unfold path_exists, lookup_path in Hex. rewrite Ht in Hex.
    destruct (w_fs w !! resolve new_dir); [eauto | discriminate].
  - destruct (mkdirs_succeeds (w_now w) (resolve new_dir) (w_fs w) [] Hclear) as [fs' Hrun].
    assert (Hmk : makedirs w new_dir = Ok (with_fs w fs')).
    { unfold makedirs. rewrite Ht, Hex. cbn [negb]. rewrite Hrun. reflexivity. }
    exists (with_fs w fs'). rewrite Hmk.
    destruct (makedirs_Ok _ _ _ Hmk) as (_ & _ & Hdirs & Hkeep & Hout).
    repeat split; assumption.
Qed.

Lemma closed_under_parents_sample : closed_under_parents (w_fs Sample.w).
Proof. apply (bool_decide_unpack _); vm_compute; exact I. Qed.

Lemma create_dir_path_witness :
  exists w', create_dir Sample.args "2017:06:19 12:26:16" "Pictures" Sample.w
             = Ok ("out/Pictures/2017/2017-06", w')
    /\ resolve "out/Pictures/2017/2017-06" = ["out"; "Pictures"; "2017"; "2017-06"]
    /\ Forall (fun q => is_dir_at (w_fs w') q = true)
         (ancestors (resolve "out/Pictures/2017/2017-06"))
    /\ (forall q n, w_fs Sample.w !! q = Some n -> w_fs w' !! q = Some n)
    /\ (forall q, q ∉ ancestors (resolve "out/Pictures/2017/2017-06") ->
        w_fs w' !! q = w_fs Sample.w !! q)
    /\ ("2017:06:19 12:26:16" = "2017:06:19 12:26:16" -> "Pictures" = "Pictures" ->
        resolve "out/Pictures/2017/2017-06" = (["out"] ++ ["Pictures"]) ++ ["2017"; "2017-06"]).
Proof.
  apply (create_dir_path Sample.args "2017:06:19 12:26:16" "Pictures" Sample.w
           "2017" "06" ["19 12"; "26"; "16"]).
  - reflexivity.
  - reflexivity.
  - reflexivity.
  - reflexivity.
  - apply (bool_decide_unpack _); vm_compute; exact I.
  - apply (bool_decide_unpack _); vm_compute; exact I.
Defined.

Lemma create_dir_idempotent_witness :
  create_dir Sample.args "2017:06:19 12:26:16" "Pictures" Sample.with_month
  = Ok ("out/Pictures/2017/2017-06", Sample.with_month)
  /\ (path_exists Sample.w "out/Pictures/2017/2017-06" = true -> Sample.with_month = Sample.w).
Proof.
  apply (create_dir_idempotent Sample.args "2017:06:19 12:26:16" "Pictures" Sample.w).
  vm_compute. reflexivity.
Defined.

(* ===================================================================== *)
(** * The collision-safe copier *)
(* ===================================================================== *)

(** ** Decimal numerals *)

Lemma str_inj a b : Py.str a = Py.str b -> a = b.
Proof.
  unfold Py.str. intros H. apply DecimalZ.to_int_inj.
  assert (Hnn : forall z, Z.to_int z <> Decimal.Pos Decimal.Nil /\ Z.to_int z <> Decimal.Neg Decimal.Nil).
  { intros [|p|p]; cbn; split; try discriminate;
      intros E; injection E as E; exact (DecimalPos.Unsigned.to_uint_nonnil p E). }
  apply (f_equal NilZero.int_of_string) in H.
  rewrite !NilZero.isi in H by apply Hnn. congruence.
Qed.

Lemma no_slash_uint u : no_slash (NilEmpty.string_of_uint u) = true.
Proof. induction u; cbn; try reflexivity; exact IHu. Qed.

Lemma no_slash_str z : no_slash (Py.str z) = true.
Proof.
  unfold Py.str. destruct (Z.to_int z) as [u|u]; cbn.
  - destruct u; try reflexivity; apply (no_slash_uint (_ u)).
  - destruct u; try reflexivity; apply (no_slash_uint (_ u)).
Qed.

(** ** The disambiguated name *)

Lemma join_cons sep x p ps : Py.join sep (x :: p :: ps) = x +:+ sep +:+ Py.join sep (p :: ps).
Proof. reflexivity. Qed.

Lemma join_split c s : Py.join (String c "") (Py.split c s) = s.
Proof.
  induction s as [|c' s IH]; [reflexivity|]. cbn [Py.split].
  pose proof (split_nonempty c s) as Hne.
  destruct (Py.split c s) as [|p ps]; [congruence|].
  destruct (Ascii.eqb_spec c' c) as [->|Hc].
  - rewrite join_cons, IH. reflexivity.
  - destruct ps as [|p' ps].
    + cbn [Py.join] in *. now rewrite IH.
    + rewrite join_cons in *. rewrite append_cons, IH. reflexivity.
Qed.

Lemma split_first s :
  exists rest, Py.split "." s = first_segment s :: rest
    /\ forall x, Py.join "." (x :: rest) = x +:+ after_first s.
Proof.
  induction s as [|c s (rest & Hs & Hj)].
  - exists []. split; [reflexivity|]. intros x. cbn. now rewrite append_nil_r.
  - cbn [Py.split first_segment after_first]. destruct (Ascii.eqb_spec c ".") as [->|Hc].
    + exists (Py.split "." s). split; [reflexivity|]. intros x.
      pose proof (join_split "." s) as Hjs.
      destruct (Py.split "." s) as [|p ps] eqn:E; [now apply split_nonempty in E|].
      rewrite join_cons. change (String "." "") with "." in Hjs. rewrite Hjs. reflexivity.
    + rewrite Hs. exists rest. split; [reflexivity|]. exact Hj.
Qed.

Lemma disambiguated_name_eq name k :
  disambiguated_name name k = Ok (new_name_of name k).
Proof.
  unfold disambiguated_name, new_name_of. destruct (split_first name) as (rest & -> & Hj).
  change (Ok (Py.join "." ((first_segment name +:+ "-" +:+ Py.str k) :: rest))
          = Ok (first_segment name +:+ "-" +:+ Py.str k +:+ after_first name)).
  rewrite Hj, !append_assoc. reflexivity.
Qed.

Lemma first_after s : s = first_segment s +:+ after_first s.
Proof.
  induction s as [|c s IH]; [reflexivity|]. cbn.
  destruct (Ascii.eqb c "."); [reflexivity|]. rewrite append_cons. now f_equal.
Qed.

Lemma first_segment_no_dot s : no_dot (first_segment s) = true.
Proof.
  induction s as [|c s IH]; [reflexivity|]. cbn.
  destruct (Ascii.eqb c ".") eqn:E; [reflexivity|]. unfold no_dot. cbn. now rewrite E.
Qed.

(** ** The paths the loop tests *)

Lemma is_name_dash l x : is_name (l +:+ String "-" x) = true.
Proof.
  apply is_name_spec. destruct l as [|c [|c' l]]; rewrite ?append_cons, ?append_nil_l;
    split; discriminate.
Qed.

Lemma new_name_of_plain name k : plain_name name = true -> plain_name (new_name_of name k) = true.
Proof.
  intros (_ & Hs & _)%plain_name_inv. rewrite (first_after name), no_slash_append in Hs.
  apply andb_true_iff in Hs as [Hf Ha]. unfold plain_name, new_name_of.
  change ("-" +:+ Py.str k +:+ after_first name) with (String "-" (Py.str k +:+ after_first name)).
  rewrite is_name_dash. change (String "-" (Py.str k +:+ after_first name))
    with ("-" +:+ Py.str k +:+ after_first name).
  rewrite !no_slash_append, Hf, Ha, no_slash_str. reflexivity.
Qed.

Lemma startswith_dash l x c :
  Py.startswith (l +:+ String "-" x) c = Py.startswith (l +:+ "-") c.
Proof. destruct l; reflexivity. Qed.

(** The path tested at the count [k] is a fixed path but for the digits of
    [k]. *)
Lemma tested_path_shape dest name :
  exists before, forall k,
    path_join dest [new_name_of name k]
    = before +:+ String "-" (Py.str k +:+ after_first name).
Proof.
  unfold path_join, new_name_of.
  change (first_segment name +:+ "-" +:+ ?x) with (first_segment name +:+ String "-" x).
  destruct (Py.startswith (first_segment name +:+ "-") "/") eqn:Hs.
  - exists (first_segment name). intros k. now rewrite startswith_dash, Hs.
  - destruct (negb (Py.truthy_str dest) || Py.endswith dest "/").
    + exists (dest +:+ first_segment name). intros k.
      now rewrite startswith_dash, Hs, append_assoc.
    + exists (dest +:+ "/" +:+ first_segment name). intros k.
      now rewrite startswith_dash, Hs, !append_assoc.
Qed.

Lemma resolve_dash_shape before after :
  exists pre l h post, forall k,
    resolve (before +:+ String "-" (Py.str k +:+ after))
    = pre ++ (l +:+ String "-" (Py.str k +:+ h)) :: post.
Proof.
  exists ((if Py.startswith (before +:+ "-") "/" then ["/"] else [])
          ++ List.filter is_name (List.removelast (Py.split "/" before))),
    (List.last (Py.split "/" before) ""), (hd "" (Py.split "/" after)),
    (List.filter is_name (tl (Py.split "/" after))).
  intros k. unfold resolve, components. rewrite startswith_dash.
  rewrite <- app_assoc. f_equal.
  change (String "-" (Py.str k +:+ after)) with (("-" +:+ Py.str k) +:+ after).
  rewrite split_append, (split_append "/" ("-" +:+ Py.str k)).
  rewrite (split_no_slash ("-" +:+ Py.str k)) by apply (no_slash_str k).
  unfold glue_last at 2. cbn [List.removelast List.last app hd tl].
  unfold glue_last. rewrite <- app_assoc, !List.filter_app. cbn [app List.filter].
  change ((("-" +:+ Py.str k) +:+ hd "" (Py.split "/" after)))
    with (String "-" (Py.str k +:+ hd "" (Py.split "/" after))).
  rewrite is_name_dash. reflexivity.
Qed.

Lemma tested_path_inj dest name j k :
  resolve (path_join dest [new_name_of name j]) = resolve (path_join dest [new_name_of name k]) ->
  j = k.
Proof.
  destruct (tested_path_shape dest name) as [before Hb]. rewrite !Hb.
  destruct (resolve_dash_shape before (after_first name)) as (pre & l & h & post & Hr).
  rewrite !Hr. intros H. apply app_inv_head in H. injection H as H.
  apply append_inv_head in H. injection H as H. apply append_inv_tail in H.
  exact (str_inj _ _ H).
Qed.

(** ** The loop *)

Lemma copy_file_loop_unfold fuel w name dest a nn p :
  copy_file_loop fuel w name dest a nn p =
  if negb (path_exists w p) then Ok (a, nn, p)
  else match fuel with
       | O => Diverge
       | S fuel' =>
           copy_file_loop fuel' w name dest (a + 1) (Some (new_name_of name (a + 1)))
             (path_join dest [new_name_of name (a + 1)])
       end.
Proof.
  destruct fuel; cbn [copy_file_loop]; [reflexivity|].
  rewrite disambiguated_name_eq. reflexivity.
Qed.

Lemma copy_file_loop_spec w name dest fuel : forall a nn p,
  match copy_file_loop fuel w name dest a nn p with
  | Ok (a', nn', p') =>
      path_exists w p' = false
      /\ ((a' = a /\ nn' = nn /\ p' = p)
          \/ (a < a' /\ nn' = Some (new_name_of name a')
              /\ p' = path_join dest [new_name_of name a']
              /\ path_exists w p = true
              /\ forall j, a < j < a' -> path_exists w (path_join dest [new_name_of name j]) = true))
  | Raise _ => False
  | Diverge =>
      path_exists w p = true
      /\ forall j, a < j <= a + Z.of_nat fuel ->
           path_exists w (path_join dest [new_name_of name j]) = true
  end.
Proof.
  induction fuel as [|fuel IH]; intros a nn p; rewrite copy_file_loop_unfold.
  - destruct (path_exists w p) eqn:Hp; cbn [negb]; [split; [reflexivity|]; intros j Hj; lia | auto].
  - destruct (path_exists w p) eqn:Hp; cbn [negb]; [|auto].
    specialize (IH (a + 1) (Some (new_name_of name (a + 1)))
                  (path_join dest [new_name_of name (a + 1)])).
    destruct (copy_file_loop fuel w name dest (a + 1) _ _) as [[[a' nn'] p']|e|].
    + destruct IH as [Hfree [(-> & -> & ->)|(Hlt & Hnn & Hp' & Hex & Hall)]].
      * split; [assumption|]. right. repeat split; try lia; reflexivity.
      * split; [assumption|]. right. repeat split; try assumption; try lia.
        intros j Hj. destruct (Z.eq_dec j (a + 1)) as [->|Hne]; [assumption|].
        apply Hall. lia.
    + exact IH.
    + destruct IH as [Hnext Hall]. split; [reflexivity|].
      intros j Hj. destruct (Z.eq_dec j (a + 1)) as [->|Hne]; [assumption|].
      apply Hall. lia.
Qed.

Lemma path_exists_lookup w p :
  path_exists w p = true -> is_Some (w_fs w !! resolve p).
Proof.
  unfold path_exists, lookup_path. destruct (Py.truthy_str p); [|discriminate].
  destruct (w_fs w !! resolve p); [eauto | discriminate].
Qed.

(** The loop tests pairwise different paths of a finite file system, so it
    comes to an end: the fuel [copy_file] gives it is never used up. *)
Lemma copy_file_loop_converges w name dest nn p :
  copy_file_loop (S (size (w_fs w))) w name dest 0 nn p <> Diverge.
Proof.
  intros Hdiv. pose proof (copy_file_loop_spec w name dest (S (size (w_fs w))) 0 nn p) as H.
  rewrite Hdiv in H. destruct H as [_ Hall].
  set (tested := (fun j : nat => resolve (path_join dest [new_name_of name (Z.of_nat j)]))
                   <$> seq 1 (S (size (w_fs w)))).
  assert (Hnodup : NoDup tested).
  { apply NoDup_fmap_2; [|apply NoDup_seq].
    intros i j Hij. apply tested_path_inj in Hij. lia. }
  assert (Hin : forall q, q ∈ tested -> q ∈ elements (dom (w_fs w))).
  { intros q (j & -> & Hj)%list_elem_of_fmap. apply elem_of_seq in Hj.
    apply elem_of_elements, elem_of_dom, path_exists_lookup, Hall. lia. }
  pose proof (submseteq_length _ _ (NoDup_submseteq _ _ Hnodup Hin)) as Hlen.
  unfold tested in Hlen. rewrite length_fmap, length_seq in Hlen.
  change (length (elements (dom (w_fs w)))) with (size (dom (w_fs w))) in Hlen.
  rewrite size_dom in Hlen. lia.
Qed.
(** ** [copy_file] *)

Lemma copy2_new w src dst st img data :
  lookup_path w src = Some (File st img data) ->
  Py.truthy_str dst = true -> path_exists w dst = false ->
  is_dir_at (w_fs w) (List.removelast (resolve dst)) = true ->
  copy2 w src dst =
  Ok (with_fs w (<[resolve dst := copy_of w (File st img data)]> (w_fs w))).
Proof.
  intros Hsrc Ht Hex Hparent. unfold copy2. rewrite Hsrc.
  assert (Hnone : w_fs w !! resolve dst = None).
  { unfold path_exists, lookup_path in Hex. rewrite Ht in Hex.
    destruct (w_fs w !! resolve dst); [discriminate | reflexivity]. }
  assert (Hnd : path_isdir w dst = false).
  { unfold path_isdir, lookup_path. now rewrite Ht, Hnone. }
  rewrite Hnd, Ht. cbn [negb]. rewrite Hnone. unfold is_dir_at in Hparent.
  destruct (w_fs w !! List.removelast (resolve dst)) as [[|]|]; try discriminate.
  reflexivity.
Qed.

Lemma candidate_plain dest name k :
  plain_name name = true ->
  Py.truthy_str (candidate dest name k) = true
  /\ List.removelast (resolve (candidate dest name k)) = resolve dest.
Proof.
  intros Hname. unfold candidate.
  set (n := if k =? 0 then name else new_name_of name k).
  assert (Hn : plain_name n = true).
  { subst n. destruct (k =? 0); [assumption | now apply new_name_of_plain]. }
  split.
  - apply path_join_truthy. apply plain_name_inv in Hn as (Hn & _ & _).
    apply is_name_spec in Hn as [Hn _]. destruct n; [congruence | reflexivity].
  - rewrite (resolve_join_name _ _ Hn). apply removelast_last.
Qed.

Lemma copy_file_terminates source_dir name dest_dir w :
  copy_file source_dir name dest_dir w <> Diverge.
Proof.
  unfold copy_file.
  pose proof (copy_file_loop_converges w name dest_dir None (path_join dest_dir [name])) as Hconv.
  destruct (copy_file_loop _ w name dest_dir 0 None _) as [[[k nn] p]|e|];
    [|discriminate|congruence].
  rewrite Ok_bind.
  assert (Hcopy : copy2 w (path_join source_dir [name]) p <> Diverge).
  { unfold copy2. repeat (case_match; try discriminate). }
  destruct (copy2 w (path_join source_dir [name]) p) as [w'| |]; [|discriminate|congruence].
  rewrite Ok_bind. destruct (0 <? k); [destruct nn|]; discriminate.
Qed.

Lemma copy_file_spec source_dir name dest_dir w st img data :
  plain_name name = true ->
  lookup_path w (path_join source_dir [name]) = Some (File st img data) ->
  is_dir_at (w_fs w) (resolve dest_dir) = true ->
  exists k, 0 <= k
    /\ (forall j, 0 <= j < k -> path_exists w (candidate dest_dir name j) = true)
    /\ path_exists w (candidate dest_dir name k) = false
    /\ copy_file source_dir name dest_dir w =
       Ok (if 0 <? k then Some (new_name_of name k) else None,
           with_fs w (<[resolve (candidate dest_dir name k) := copy_of w (File st img data)]>
                        (w_fs w))).
Proof.
  intros Hname Hsrc Hdest. unfold copy_file.
  pose proof (copy_file_loop_spec w name dest_dir (S (size (w_fs w))) 0 None
                (path_join dest_dir [name])) as Hloop.
  pose proof (copy_file_loop_converges w name dest_dir None (path_join dest_dir [name])) as Hconv.
  destruct (copy_file_loop _ w name dest_dir 0 None _) as [[[k nn] p]|e|];
    [|contradiction|congruence].
  destruct Hloop as [Hfree Hcase]. rewrite Ok_bind.
  assert (Htarget : 0 <= k /\ p = candidate dest_dir name k
                    /\ (forall j, 0 <= j < k -> path_exists w (candidate dest_dir name j) = true)
                    /\ (0 < k -> nn = Some (new_name_of name k))).
  { destruct Hcase as [(-> & -> & ->)|(Hlt & -> & -> & Hex & Hall)].
    - repeat split; try lia; reflexivity.
    - unfold candidate. destruct (Z.eqb_spec k 0) as [->|_]; [lia|].
      repeat split; try lia. intros j Hj.
      destruct (Z.eqb_spec j 0) as [->|Hj0]; [assumption | apply Hall; lia]. }
  destruct Htarget as (Hk & -> & Hall & Hnn).
  destruct (candidate_plain dest_dir name k Hname) as [Ht Hparent].
  exists k. repeat split; try assumption.
  rewrite (copy2_new w _ _ st img data Hsrc Ht Hfree) by now rewrite Hparent.
  rewrite Ok_bind. destruct (Z.ltb_spec 0 k) as [Hpos|_]; [|reflexivity].
  now rewrite (Hnn Hpos).
Qed.


(** What a call that returns has done: the count it stopped at decides the
    name it returns and the path it copied to. *)
Lemma copy_file_result source_dir name dest_dir w r w' :
  copy_file source_dir name dest_dir w = Ok (r, w') ->
  exists k, 0 <= k
    /\ r = (if 0 <? k then Some (new_name_of name k) else None)
    /\ path_exists w (candidate dest_dir name k) = false
    /\ copy2 w (path_join source_dir [name]) (candidate dest_dir name k) = Ok w'.
Proof.
  unfold copy_file. intros H.
  pose proof (copy_file_loop_spec w name dest_dir (S (size (w_fs w))) 0 None
                (path_join dest_dir [name])) as Hloop.
  destruct (copy_file_loop _ w name dest_dir 0 None _) as [[[k nn] p]|e|]; try discriminate.
  rewrite Ok_bind in H. apply bind_Ok in H as (w1 & Hcopy & H).
  destruct Hloop as [Hfree [(-> & -> & ->)|(Hlt & -> & -> & Hex & Hall)]].
  - exists 0. cbn in H. injection H as <- <-. repeat split; try assumption; lia.
  - exists k. unfold candidate. destruct (Z.eqb_spec k 0) as [->|_]; [lia|].
    destruct (Z.ltb_spec 0 k) as [_|?]; [|lia]. injection H as <- <-.
    repeat split; try assumption; lia.
Qed.
Lemma length_append s t : String.length (s +:+ t) = (String.length s + String.length t)%nat.
Proof. now rewrite <- !chars_length, chars_append, length_app. Qed.

Lemma new_name_of_new name k : new_name_of name k <> name.
Proof.
  intros H. apply (f_equal String.length) in H.
  pose proof (f_equal String.length (first_after name)) as Hlen.
  unfold new_name_of in H. rewrite !length_append in H. rewrite !length_append in Hlen.
  change (String.length "-") with 1%nat in H. lia.
Qed.

(** C3: [copy_file] never writes on a path that exists.  It tests the path
    of the name, then the paths of the names with the counts 1, 2, 3, ... in
    this order, and copies to the first one that does not exist; every entry
    of the file system is kept. *)
Theorem copy_file_no_overwrite (source_dir source_file_name dest_dir : string) (w : world)
    (st : stat) (img : exif_read) (data : string) :
  plain_name source_file_name = true ->
  lookup_path w (path_join source_dir [source_file_name]) = Some (File st img data) ->
  is_dir_at (w_fs w) (resolve dest_dir) = true ->
  exists (k : Z) (new_name : option string) (w' : world),
    copy_file source_dir source_file_name dest_dir w = Ok (new_name, w')
    /\ 0 <= k
    /\ (forall j, 0 <= j < k -> path_exists w (candidate dest_dir source_file_name j) = true)
    /\ path_exists w (candidate dest_dir source_file_name k) = false
    /\ w_fs w !! resolve (candidate dest_dir source_file_name k) = None
    /\ w_fs w' = <[resolve (candidate dest_dir source_file_name k) :=
                    copy_of w (File st img data)]> (w_fs w)
    /\ (forall q n, w_fs w !! q = Some n -> w_fs w' !! q = Some n).
Proof.
  intros Hname Hsrc Hdest.
  destruct (copy_file_spec _ _ _ _ _ _ _ Hname Hsrc Hdest) as (k & Hk & Hall & Hfree & Hrun).
  destruct (candidate_plain dest_dir source_file_name k Hname) as [Ht _].
  assert (Hnone : w_fs w !! resolve (candidate dest_dir source_file_name k) = None).
  { unfold path_exists, lookup_path in Hfree. rewrite Ht in Hfree.
    destruct (w_fs w !! _); [discriminate | reflexivity]. }
  eexists k, _, _. split; [exact Hrun|]. repeat split; try assumption.
  intros q n Hq. cbn [w_fs with_fs]. rewrite lookup_insert_ne; [assumption | congruence].
Qed.

(** C9: [copy_file] returns [None] exactly when the name was free in the
    destination, and then the copy bears the name; otherwise it returns the
    name it gave to the copy, which is a new one, and the file that bore the
    name is as it was. *)
Theorem copy_file_returns_rename (source_dir source_file_name dest_dir : string) (w : world)
    (st : stat) (img : exif_read) (data : string) :
  plain_name source_file_name = true ->
  lookup_path w (path_join source_dir [source_file_name]) = Some (File st img data) ->
  is_dir_at (w_fs w) (resolve dest_dir) = true ->
  exists (new_name : option string) (w' : world),
    copy_file source_dir source_file_name dest_dir w = Ok (new_name, w')
    /\ (new_name = None <-> path_exists w (path_join dest_dir [source_file_name]) = false)
    /\ (new_name = None ->
        w_fs w' !! resolve (path_join dest_dir [source_file_name])
        = Some (copy_of w (File st img data)))
    /\ (forall n, new_name = Some n ->
        (exists k, 0 < k /\ n = new_name_of source_file_name k)
        /\ n <> source_file_name
        /\ w_fs w' !! resolve (path_join dest_dir [n]) = Some (copy_of w (File st img data))
        /\ w_fs w' !! resolve (path_join dest_dir [source_file_name])
           = w_fs w !! resolve (path_join dest_dir [source_file_name])).
Proof.
  intros Hname Hsrc Hdest.
  destruct (copy_file_spec _ _ _ _ _ _ _ Hname Hsrc Hdest) as (k & Hk & Hall & Hfree & Hrun).
  eexists _, _. split; [exact Hrun|]. cbn [w_fs with_fs].
  destruct (Z.ltb_spec 0 k) as [Hpos|Hle].
  - assert (Hk0 : (k =? 0) = false) by (apply Z.eqb_neq; lia).
    assert (Hc : candidate dest_dir source_file_name k
                 = path_join dest_dir [new_name_of source_file_name k])
      by (unfold candidate; now rewrite Hk0).
    assert (H0 : path_exists w (path_join dest_dir [source_file_name]) = true)
      by (apply (Hall 0); lia).
    split; [split; congruence|]. split; [discriminate|].
    intros n Hn. injection Hn as <-. split; [exists k; split; [assumption | reflexivity]|].
    split; [apply new_name_of_new|]. rewrite Hc. split; [apply lookup_insert_eq|].
    apply lookup_insert_ne. intros Heq.
    pose proof (new_name_of_plain source_file_name k Hname) as Hplain.
    rewrite !resolve_join_name in Heq by assumption.
    apply app_inv_head in Heq. injection Heq as Heq. exact (new_name_of_new _ _ Heq).
  - assert (k = 0) as -> by lia. change (candidate dest_dir source_file_name 0)
      with (path_join dest_dir [source_file_name]) in *.
    split; [split; auto|]. split; [intros _; apply lookup_insert_eq | discriminate].
Qed.
(** C6: the name tried at the count [k] is the source name with [-k] after
    its first dot-separated segment, whatever the number of dots, and a
    renamed copy bears such a name; so [name.ext] gives [name-1.ext],
    [my.photo.jpg] gives [my-1.photo.jpg] and [name] gives [name-1]. *)
Theorem disambiguated_name_form (source_file_name : string) (k : Z) :
  disambiguated_name source_file_name k
  = Ok (first_segment source_file_name +:+ "-" +:+ Py.str k +:+ after_first source_file_name)
  /\ source_file_name = first_segment source_file_name +:+ after_first source_file_name
  /\ no_dot (first_segment source_file_name) = true
  /\ (forall source_dir dest_dir w new_name w',
        copy_file source_dir source_file_name dest_dir w = Ok (Some new_name, w') ->
        exists j, 0 < j /\
          new_name = first_segment source_file_name +:+ "-" +:+ Py.str j
                     +:+ after_first source_file_name)
  /\ disambiguated_name "name.ext" 1 = Ok "name-1.ext"
  /\ disambiguated_name "my.photo.jpg" 1 = Ok "my-1.photo.jpg"
  /\ disambiguated_name "name" 1 = Ok "name-1".
Proof.
  split; [apply disambiguated_name_eq|]. split; [apply first_after|].
  split; [apply first_segment_no_dot|]. split; [|repeat split; reflexivity].
  intros source_dir dest_dir w new_name w' Hrun.
  destruct (copy_file_result _ _ _ _ _ _ Hrun) as (j & Hj & Hr & _ & _).
  exists j. destruct (Z.ltb_spec 0 j) as [Hpos|_]; [|discriminate].
  split; [assumption|]. injection Hr as ->. reflexivity.
Qed.

(** A third photo of the same name is numbered 2. *)
Example copy_file_third :
  exists w', copy_file "src" "IMG_1.jpg" "out/Pictures/2017/2017-06" Sample.crowded
             = Ok (Some "IMG_1-2.jpg", w').
Proof. eexists. vm_compute. reflexivity. Qed.


Lemma copy_file_no_overwrite_witness :
  exists (k : Z) (new_name : option string) (w' : world),
    copy_file "src" "IMG_1.jpg" "out/Pictures/2017/2017-06" Sample.crowded = Ok (new_name, w')
    /\ 0 <= k
    /\ (forall j, 0 <= j < k ->
        path_exists Sample.crowded (candidate "out/Pictures/2017/2017-06" "IMG_1.jpg" j) = true)
    /\ path_exists Sample.crowded (candidate "out/Pictures/2017/2017-06" "IMG_1.jpg" k) = false
    /\ w_fs Sample.crowded !! resolve (candidate "out/Pictures/2017/2017-06" "IMG_1.jpg" k) = None
    /\ w_fs w' = <[resolve (candidate "out/Pictures/2017/2017-06" "IMG_1.jpg" k) :=
                    copy_of Sample.crowded Sample.photo]> (w_fs Sample.crowded)
    /\ (forall q n, w_fs Sample.crowded !! q = Some n -> w_fs w' !! q = Some n).
Proof.
  apply (copy_file_no_overwrite "src" "IMG_1.jpg" "out/Pictures/2017/2017-06" Sample.crowded
           Sample.times (ExifReturns (Some {[ 36867 := "2020:01:15 10:00:00" ]})) "photo").
  - reflexivity.
  - vm_compute. reflexivity.
  - vm_compute. reflexivity.
Defined.

Lemma copy_file_returns_rename_witness :
  exists (new_name : option string) (w' : world),
    copy_file "src" "IMG_1.jpg" "out/Pictures/2017/2017-06" Sample.crowded = Ok (new_name, w')
    /\ (new_name = None <->
        path_exists Sample.crowded (path_join "out/Pictures/2017/2017-06" ["IMG_1.jpg"]) = false)
    /\ (new_name = None ->
        w_fs w' !! resolve (path_join "out/Pictures/2017/2017-06" ["IMG_1.jpg"])
        = Some (copy_of Sample.crowded Sample.photo))
    /\ (forall n, new_name = Some n ->
        (exists k, 0 < k /\ n = new_name_of "IMG_1.jpg" k)
        /\ n <> "IMG_1.jpg"
        /\ w_fs w' !! resolve (path_join "out/Pictures/2017/2017-06" [n])
           = Some (copy_of Sample.crowded Sample.photo)
        /\ w_fs w' !! resolve (path_join "out/Pictures/2017/2017-06" ["IMG_1.jpg"])
           = w_fs Sample.crowded !! resolve (path_join "out/Pictures/2017/2017-06" ["IMG_1.jpg"])).
Proof.
  apply (copy_file_returns_rename "src" "IMG_1.jpg" "out/Pictures/2017/2017-06" Sample.crowded
           Sample.times (ExifReturns (Some {[ 36867 := "2020:01:15 10:00:00" ]})) "photo").
  - reflexivity.
  - vm_compute. reflexivity.
  - vm_compute. reflexivity.
Defined.

(* ===================================================================== *)
(** * The orchestrator *)
(* ===================================================================== *)

(** ** The histogram *)

Lemma histogram_total_insert (exts : gmap string Z) (e : string) (n : Z) :
  exts !! e = None -> histogram_total (<[e := n]> exts) = n + histogram_total exts.
Proof.
  intros H. unfold histogram_total. rewrite map_fold_insert_L; [reflexivity| |assumption].
  intros. lia.
Qed.

Lemma histogram_total_count_ext (e : string) (exts : gmap string Z) :
  histogram_total (count_ext e exts) = histogram_total exts + 1.
Proof.
  unfold count_ext. destruct (exts !! e) as [n|] eqn:He.
  - rewrite <- (insert_delete_eq exts e (n + 1)).
    rewrite histogram_total_insert by apply lookup_delete_eq.
    unfold histogram_total at 2.
    rewrite (map_fold_delete_L _ _ e n exts); [|intros; lia|assumption].
    fold (histogram_total (delete e exts)). lia.
  - rewrite histogram_total_insert by assumption. lia.
Qed.

(** ** The loop body *)

Lemma get_best_date_total w full_path n :
  lookup_path w full_path = Some n ->
  exists best_date had_exif, get_best_date w full_path = Ok (best_date, had_exif).
Proof.
  intros Hn. unfold get_best_date.
  destruct (try_except (Image_getexif w full_path) None) as [info|e|] eqn:Hinfo.
  - rewrite Ok_bind. destruct (truthy_info info && info_contains info 36867) eqn:Htest.
    + apply andb_true_iff in Htest as [_ Hc]. destruct info as [tags|]; [|discriminate].
      cbn [info_contains] in Hc. apply bool_decide_eq_true in Hc as [v Hv].
      cbn [info_get]. rewrite Hv, Ok_bind. eauto.
    + unfold getctime, getmtime. rewrite Hn, !Ok_bind. eauto.
  - destruct (Image_getexif w full_path); discriminate.
  - unfold Image_getexif in Hinfo. rewrite Hn in Hinfo.
    destruct n as [st|st [e|info] data]; discriminate.
Qed.

Lemma account_file_Ok root name st st1 best_date media_dir :
  account_file root name st = Ok (st1, best_date, media_dir) ->
  exists had_exif,
    get_best_date (the_world st) (path_join root [name]) = Ok (best_date, had_exif)
    /\ accounted root name best_date had_exif st st1
    /\ logged st1 = logged st ++ [file_line had_exif best_date (path_join root [name])]
    /\ ignored_files st1 = ignored_files st
    /\ the_world st1 = the_world st
    /\ media_dir = category (Py.lower (splitext (path_join root [name])).2).
Proof.
  unfold account_file, accounted, category. cbv zeta.
  destruct (splitext (path_join root [name])) as [file_name file_ext]. cbn [snd].
  cbn [the_world set_file_exts incr_total_files].
  destruct (get_best_date (the_world st) (path_join root [name])) as [[d e]| |];
    try discriminate.
  rewrite Ok_bind. intros H. exists e.
  destruct (Py.mem (Py.lower file_ext) photo_exts);
    [|destruct (Py.mem (Py.lower file_ext) video_exts)].
  all: injection H as <- <- <-.
  all: destruct e; cbn; repeat split; try reflexivity; exists []; reflexivity.
Qed.

Lemma account_file_total root name st best_date had_exif :
  get_best_date (the_world st) (path_join root [name]) = Ok (best_date, had_exif) ->
  exists st1 media_dir, account_file root name st = Ok (st1, best_date, media_dir).
Proof.
  intros H. unfold account_file. cbv zeta.
  destruct (splitext (path_join root [name])) as [file_name file_ext].
  cbn [the_world set_file_exts incr_total_files]. rewrite H, Ok_bind.
  destruct (Py.mem (Py.lower file_ext) photo_exts);
    [|destruct (Py.mem (Py.lower file_ext) video_exts)]; eauto.
Qed.

Lemma process_file_Ok args root name st st' :
  process_file args root name st = Ok st' ->
  exists best_date had_exif,
    get_best_date (the_world st) (path_join root [name]) = Ok (best_date, had_exif)
    /\ accounted root name best_date had_exif st st'
    /\ ignored_files st' = (if Py.mem name ignore_files then ignored_files st + 1
                            else ignored_files st).
Proof.
  unfold process_file. intros H. apply bind_Ok in H as ([[st1 d] m] & Hacc & H).
  destruct (account_file_Ok _ _ _ _ _ _ Hacc) as (e & Hdate & Hcount & Hlog & Hign & Hw & _).
  exists d, e. split; [assumption|].
  unfold accounted in *. cbv zeta in *. destruct Hcount as (Ht & Hx & He & Hp & Hv & _).
  destruct (Py.mem name ignore_files); cbn [negb] in H.
  - injection H as <-.
    cbn [total_files ignored_files total_exif total_photos total_videos file_exts logged
         incr_ignored_files].
    rewrite Hlog, Hign. repeat split; try assumption. exists []. reflexivity.
  - apply bind_Ok in H as ([created_dir w1] & _ & H).
    apply bind_Ok in H as ([new_name w2] & _ & H).
    assert (Hst : st' = set_world w2 st1 \/ exists line, st' = log line (set_world w2 st1)).
    { destruct new_name as [n|]; [destruct (Py.truthy_str n)|]; injection H as <-; eauto. }
    destruct Hst as [->|[line ->]];
      cbn [total_files ignored_files total_exif total_photos total_videos file_exts logged
           set_world log];
      rewrite Hlog; repeat split; try assumption.
    + exists []. reflexivity.
    + exists [line]. now rewrite <- app_assoc.
Qed.

(** One file more: the total and the sum of the histogram grow by one, and
    the file counts as a photo, as a video or as neither. *)
Lemma process_file_step args root name st st' :
  process_file args root name st = Ok st' ->
  total_files st' = total_files st + 1
  /\ histogram_total (file_exts st') = histogram_total (file_exts st) + 1
  /\ ((total_photos st' = total_photos st + 1 /\ total_videos st' = total_videos st)
      \/ (total_photos st' = total_photos st /\ total_videos st' = total_videos st + 1)
      \/ (total_photos st' = total_photos st /\ total_videos st' = total_videos st)).
Proof.
  intros H. destruct (process_file_Ok _ _ _ _ _ H) as (d & e & _ & Hacc & _).
  unfold accounted in Hacc. cbv zeta in Hacc. destruct Hacc as (Ht & Hx & _ & Hp & Hv & _).
  split; [assumption|]. split; [rewrite Hx; apply histogram_total_count_ext|].
  rewrite Hp, Hv. destruct (Py.mem _ photo_exts); [|destruct (Py.mem _ video_exts)]; auto.
Qed.

Lemma process_file_consistent args root name st st' :
  counters_consistent st -> process_file args root name st = Ok st' ->
  counters_consistent st'.
Proof.
  intros [Hh Hc] H. destruct (process_file_step _ _ _ _ _ H) as (Ht & Hx & Hpv).
  unfold counters_consistent. split; lia.
Qed.

Lemma process_files_consistent args root files : forall st st',
  counters_consistent st -> process_files args root files st = Ok st' ->
  counters_consistent st'.
Proof.
  induction files as [|name files IH]; intros st st' Hinv H; cbn [process_files] in H.
  - now injection H as <-.
  - apply bind_Ok in H as (st1 & H1 & H). eauto using process_file_consistent.
Qed.

Lemma main_loop_consistent args walk : forall st st',
  counters_consistent st -> main_loop args walk st = Ok st' -> counters_consistent st'.
Proof.
  induction walk as [|[[root dirs] files] walk IH]; intros st st' Hinv H; cbn [main_loop] in H.
  - now injection H as <-.
  - apply bind_Ok in H as (st1 & H1 & H). eauto using process_files_consistent.
Qed.

Lemma initial_state_consistent w : counters_consistent (initial_state w).
Proof. split; [reflexivity | cbn; lia]. Qed.

(** C10: in every state the loop of [main] reaches, the counts of the
    histogram add up to [total_files] and [total_photos + total_videos] is at
    most [total_files]; one file more adds one to the total and to the
    histogram, and one to the photos, to the videos, or to neither. *)
Theorem counters_invariant (args : Args) (walk : list (string * list string * list string))
    (w : world) (st : state) :
  main_loop args walk (initial_state w) = Ok st ->
  histogram_total (file_exts st) = total_files st
  /\ total_photos st + total_videos st <= total_files st
  /\ (forall root name st', process_file args root name st = Ok st' ->
      total_files st' = total_files st + 1
      /\ histogram_total (file_exts st') = histogram_total (file_exts st) + 1
      /\ ((total_photos st' = total_photos st + 1 /\ total_videos st' = total_videos st)
          \/ (total_photos st' = total_photos st /\ total_videos st' = total_videos st + 1)
          \/ (total_photos st' = total_photos st /\ total_videos st' = total_videos st))
      /\ histogram_total (file_exts st') = total_files st'
      /\ total_photos st' + total_videos st' <= total_files st').
Proof.
  intros H.
  destruct (main_loop_consistent _ _ _ _ (initial_state_consistent w) H) as [Hh Hc].
  split; [assumption|]. split; [assumption|]. intros root name st' Hstep.
  destruct (process_file_step _ _ _ _ _ Hstep) as (Ht & Hx & Hpv).
  repeat split; try assumption; lia.
Qed.

Lemma counters_invariant_witness :
  histogram_total (file_exts Sample.final) = total_files Sample.final
  /\ total_photos Sample.final + total_videos Sample.final <= total_files Sample.final
  /\ (forall root name st', process_file Sample.args root name Sample.final = Ok st' ->
      total_files st' = total_files Sample.final + 1
      /\ histogram_total (file_exts st') = histogram_total (file_exts Sample.final) + 1
      /\ ((total_photos st' = total_photos Sample.final + 1
           /\ total_videos st' = total_videos Sample.final)
          \/ (total_photos st' = total_photos Sample.final
              /\ total_videos st' = total_videos Sample.final + 1)
          \/ (total_photos st' = total_photos Sample.final
              /\ total_videos st' = total_videos Sample.final))
      /\ histogram_total (file_exts st') = total_files st'
      /\ total_photos st' + total_videos st' <= total_files st').
Proof.
  apply (counters_invariant Sample.args Sample.walk Sample.w Sample.final).
  vm_compute. reflexivity.
Defined.

(** The run of the sample: three files, one ignored, one photo, one video,
    one embedded date. *)
Example sample_run :
  main_loop Sample.args Sample.walk (initial_state Sample.w) = Ok Sample.final
  /\ (total_files Sample.final, ignored_files Sample.final, total_photos Sample.final,
      total_videos Sample.final, total_exif Sample.final) = (3, 1, 1, 1, 1)
  /\ logged Sample.final =
     ["(Exif) 2020:01:15 10:00:00 src/IMG_1.jpg"; "2017:06:19 01:26:16 src/clip.mp4";
      "2017:06:19 01:26:16 src/Thumbs.db"]
  /\ is_file_at (w_fs (the_world Sample.final)) ["out"; "Pictures"; "2020"; "2020-01"; "IMG_1.jpg"]
     = true
  /\ is_file_at (w_fs (the_world Sample.final)) ["out"; "Videos"; "2017"; "2017-06"; "clip.mp4"]
     = true.
Proof.
  split; [vm_compute; reflexivity|]. split; [vm_compute; reflexivity|].
  split; [vm_compute; reflexivity|]. split; vm_compute; reflexivity.
Qed.

(** C5: for a file of the ignore list the loop body raises nothing; it adds
    one to [ignored_files] and leaves the file system as it is (no directory,
    no copy), and it counts the file, resolves its date and logs its line as
    it does for a file that is not ignored. *)
Theorem ignored_file_counted (args : Args) (root name : string) (st : state) (n : node) :
  Py.mem name ignore_files = true ->
  lookup_path (the_world st) (path_join root [name]) = Some n ->
  exists best_date had_exif st',
    get_best_date (the_world st) (path_join root [name]) = Ok (best_date, had_exif)
    /\ process_file args root name st = Ok st'
    /\ ignored_files st' = ignored_files st + 1
    /\ the_world st' = the_world st
    /\ accounted root name best_date had_exif st st'
    /\ logged st' = logged st ++ [file_line had_exif best_date (path_join root [name])]
    /\ (forall other st2,
        Py.mem other ignore_files = false ->
        process_file args root other st = Ok st2 ->
        exists date exif,
          get_best_date (the_world st) (path_join root [other]) = Ok (date, exif)
          /\ accounted root other date exif st st2
          /\ ignored_files st2 = ignored_files st).
Proof.
  intros Hign Hn.
  destruct (get_best_date_total _ _ _ Hn) as (d & e & Hdate).
  destruct (account_file_total root name st d e Hdate) as (st1 & m & Hacc).
  destruct (account_file_Ok _ _ _ _ _ _ Hacc) as (e' & Hdate' & Hcount & Hlog & Hi & Hw & _).
  assert (e' = e) as -> by congruence.
  exists d, e, (incr_ignored_files st1).
  split; [assumption|]. split.
  { unfold process_file. rewrite Hacc, Ok_bind, Hign. reflexivity. }
  unfold accounted in *. cbv zeta in *.
  cbn [total_files ignored_files total_exif total_photos total_videos file_exts logged
       the_world incr_ignored_files].
  rewrite Hi, Hw. repeat split; try tauto.
  intros other st2 Hother Hrun.
  destruct (process_file_Ok _ _ _ _ _ Hrun) as (d2 & e2 & Hd2 & Hacc2 & Hi2).
  rewrite Hother in Hi2. eauto.
Qed.

Lemma ignored_file_counted_witness :
  exists best_date had_exif st',
    get_best_date (the_world (initial_state Sample.w)) (path_join "src" ["Thumbs.db"])
    = Ok (best_date, had_exif)
    /\ process_file Sample.args "src" "Thumbs.db" (initial_state Sample.w) = Ok st'
    /\ ignored_files st' = ignored_files (initial_state Sample.w) + 1
    /\ the_world st' = the_world (initial_state Sample.w)
    /\ accounted "src" "Thumbs.db" best_date had_exif (initial_state Sample.w) st'
    /\ logged st' = logged (initial_state Sample.w)
                    ++ [file_line had_exif best_date (path_join "src" ["Thumbs.db"])]
    /\ (forall other st2,
        Py.mem other ignore_files = false ->
        process_file Sample.args "src" other (initial_state Sample.w) = Ok st2 ->
        exists date exif,
          get_best_date (the_world (initial_state Sample.w)) (path_join "src" [other])
          = Ok (date, exif)
          /\ accounted "src" other date exif (initial_state Sample.w) st2
          /\ ignored_files st2 = ignored_files (initial_state Sample.w)).
Proof.
  apply (ignored_file_counted Sample.args "src" "Thumbs.db" (initial_state Sample.w) Sample.junk).
  - reflexivity.
  - vm_compute. reflexivity.
Defined.

(* ===================================================================== *)
(** * Further properties: dates and directories *)
(* ===================================================================== *)

Lemma split_no_colon s : no_colon s = true -> Py.split ":" s = [s].
Proof.
  induction s as [|c s IH]; [reflexivity|]. unfold no_colon. cbn.
  intros [Hc Hs]%andb_true_iff. apply negb_true_iff in Hc. rewrite Hc.
  rewrite (IH Hs). reflexivity.
Qed.

Lemma no_colon_append s t : no_colon (s +:+ t) = no_colon s && no_colon t.
Proof. unfold no_colon. rewrite chars_append. apply forallb_app. Qed.

Lemma no_colon_uint u : no_colon (NilEmpty.string_of_uint u) = true.
Proof. induction u; cbn; try reflexivity; exact IHu. Qed.

Lemma no_colon_str z : no_colon (Py.str z) = true.
Proof.
  unfold Py.str. destruct (Z.to_int z) as [u|u]; cbn.
  - destruct u; try reflexivity; apply (no_colon_uint (_ u)).
  - destruct u; try reflexivity; apply (no_colon_uint (_ u)).
Qed.

Lemma no_colon_pad2 z : no_colon (Time.pad2 z) = true.
Proof.
  unfold Time.pad2. destruct (z <? 10); [|apply no_colon_str].
  rewrite no_colon_append, no_colon_str. reflexivity.
Qed.

(** The first two fields of a date text are its year and its month. *)
Lemma split_date_text y m d h n s :
  no_colon y = true -> no_colon m = true ->
  exists rest, Py.split ":" (date_text y m d h n s) = y :: m :: rest.
Proof.
  intros Hy Hm. unfold date_text.
  rewrite split_append, (split_no_colon y Hy).
  change (":" +:+ ?x) with (String ":" x). cbn [Py.split Ascii.eqb Bool.eqb hd tl].
  unfold glue_last. cbn [List.removelast List.last app]. rewrite append_nil_r.
  rewrite split_append, (split_no_colon m Hm).
  cbn [Py.split Ascii.eqb Bool.eqb hd tl].
  unfold glue_last. cbn [List.removelast List.last app]. rewrite append_nil_r.
  eexists. reflexivity.
Qed.

(** What the fallback returns. *)
Lemma get_best_date_false w full_path best_date :
  get_best_date w full_path = Ok (best_date, false) ->
  exists n, lookup_path w full_path = Some n
    /\ best_date = Time.strftime "%Y:%m:%d %I:%M:%S"
                     (Time.localtime (w_utcoffset w) (earlier_timestamp n)).
Proof.
  unfold get_best_date. intros H. apply bind_Ok in H as (info & Hinfo & H).
  destruct (truthy_info info && info_contains info 36867).
  - apply bind_Ok in H as (v & _ & H). discriminate.
  - apply bind_Ok in H as (c & Hc & H). apply bind_Ok in H as (m & Hm & H).
    rewrite earlier_timestamp_spec in H. apply Ok_pair_inv in H as [<- _].
    unfold getctime in Hc. unfold getmtime in Hm.
    destruct (lookup_path w full_path) as [n|]; [|discriminate].
    injection Hc as <-. injection Hm as <-. exists n. split; reflexivity.
Qed.

(** What a readable tag gives. *)
Lemma get_best_date_tag w full_path tags value :
  Image_getexif w full_path = Ok (Some tags) -> tags !! 36867 = Some value ->
  get_best_date w full_path = Ok (value, true).
Proof.
  intros Hread Htag. unfold get_best_date. rewrite Hread.
  cbn [try_except]. rewrite Ok_bind. cbn [truthy_info info_contains info_get].
  rewrite (lookup_nonempty _ _ _ Htag), Htag.
  rewrite bool_decide_eq_true_2 by eauto. reflexivity.
Qed.

Lemma get_best_date_Ok_exists w full_path r :
  get_best_date w full_path = Ok r -> exists n, lookup_path w full_path = Some n.
Proof.
  unfold get_best_date. intros H. apply bind_Ok in H as (info & Hinfo & H).
  destruct (lookup_path w full_path) as [n|] eqn:Hn; [eauto|]. exfalso.
  assert (info = None) as ->.
  { unfold Image_getexif in Hinfo. rewrite Hn in Hinfo. cbn in Hinfo. congruence. }
  cbn in H. unfold getctime in H. rewrite Hn in H. discriminate.
Qed.

Lemma get_best_date_same w w' full_path :
  lookup_path w' full_path = lookup_path w full_path ->
  w_utcoffset w' = w_utcoffset w ->
  get_best_date w' full_path = get_best_date w full_path.
Proof.
  intros Hl Hz. unfold get_best_date, Image_getexif, getctime, getmtime. now rewrite Hl, Hz.
Qed.

Lemma hour12_half_day h : 0 <= h < 12 -> Time.hour12 (h + 12) = Time.hour12 h.
Proof.
  intros H. unfold Time.hour12.
  replace ((h + 12) mod 12) with (h mod 12); [reflexivity|].
  Z.div_mod_to_equations; lia.
Qed.

Lemma gmtime_half_day x :
  x mod 86400 < 43200 ->
  Time.gmtime (x + 43200) =
  {| Time.tm_year := Time.tm_year (Time.gmtime x); Time.tm_mon := Time.tm_mon (Time.gmtime x);
     Time.tm_mday := Time.tm_mday (Time.gmtime x);
     Time.tm_hour := Time.tm_hour (Time.gmtime x) + 12;
     Time.tm_min := Time.tm_min (Time.gmtime x); Time.tm_sec := Time.tm_sec (Time.gmtime x) |}
  /\ 0 <= Time.tm_hour (Time.gmtime x) < 12.
Proof.
  intros H. unfold Time.gmtime.
  assert (Hd : (x + 43200) / 86400 = x / 86400) by (Z.div_mod_to_equations; lia).
  assert (Hr : (x + 43200) mod 86400 = x mod 86400 + 43200) by (Z.div_mod_to_equations; lia).
  rewrite Hd, Hr. destruct (Time.civil_from_days (x / 86400)) as [[y m] d]. cbn.
  split; [f_equal|]; Z.div_mod_to_equations; lia.
Qed.

(** X1: a date text without colon has no month: [create_dir] raises
    [IndexError], whatever the file system, and makes no directory. *)
Theorem create_dir_no_colon (args : Args) (date_string media_dir : string) (w : world) :
  no_colon date_string = true ->
  create_dir args date_string media_dir w = Raise IndexError.
Proof.
  intros H. unfold create_dir. rewrite (split_no_colon _ H). reflexivity.
Qed.

Lemma create_dir_no_colon_witness :
  create_dir Sample.args "unknown" "Pictures" Sample.w = Raise IndexError.
Proof. apply (create_dir_no_colon Sample.args "unknown" "Pictures" Sample.w). reflexivity. Defined.

(** X2: the [try] of [get_best_date] covers the read of the metadata only:
    for a path that does not exist the file times cannot be read and
    [get_best_date] raises. *)
Theorem get_best_date_missing (w : world) (full_path : string) :
  lookup_path w full_path = None ->
  get_best_date w full_path = Raise FileNotFoundError.
Proof.
  intros H. unfold get_best_date, Image_getexif, getctime. rewrite H. reflexivity.
Qed.

Lemma get_best_date_missing_witness :
  get_best_date Sample.w "src/IMG_9.jpg" = Raise FileNotFoundError.
Proof. apply (get_best_date_missing Sample.w "src/IMG_9.jpg"). vm_compute. reflexivity. Defined.

(** X3: the fallback does not tell the morning from the afternoon: two files
    dated by their file times, the second twelve hours after the first on the
    same local morning, get the same text. *)
Theorem get_best_date_half_day (w : world) (path1 path2 date1 date2 : string) (n1 n2 : node) :
  get_best_date w path1 = Ok (date1, false) ->
  get_best_date w path2 = Ok (date2, false) ->
  lookup_path w path1 = Some n1 ->
  lookup_path w path2 = Some n2 ->
  (earlier_timestamp n1 + w_utcoffset w (earlier_timestamp n1)) mod 86400 < 43200 ->
  earlier_timestamp n2 + w_utcoffset w (earlier_timestamp n2)
  = earlier_timestamp n1 + w_utcoffset w (earlier_timestamp n1) + 43200 ->
  date2 = date1.
Proof.
  intros H1 H2 Hn1 Hn2 Hmorning Hlater.
  apply get_best_date_false in H1 as (n1' & Hn1' & ->).
  apply get_best_date_false in H2 as (n2' & Hn2' & ->).
  assert (n1' = n1) as -> by congruence. assert (n2' = n2) as -> by congruence.
  unfold Time.localtime. rewrite Hlater.
  destruct (gmtime_half_day _ Hmorning) as [-> Hh].
  rewrite !strftime_program_format. cbn [Time.tm_year Time.tm_mon Time.tm_mday Time.tm_hour
    Time.tm_min Time.tm_sec]. now rewrite hour12_half_day.
Qed.

Lemma get_best_date_half_day_witness : "2017:06:19 01:26:16" = "2017:06:19 01:26:16".
Proof.
  apply (get_best_date_half_day Scenario.w "src/dawn.mp4" "src/clip.mp4"
           "2017:06:19 01:26:16" "2017:06:19 01:26:16" Scenario.dawn Sample.clip).
  - vm_compute. reflexivity.
  - vm_compute. reflexivity.
  - vm_compute. reflexivity.
  - vm_compute. reflexivity.
  - vm_compute. reflexivity.
  - vm_compute. reflexivity.
Defined.

(** X4: a date that comes from the file times always has a year and a month
    for [create_dir]: the directory is [root/category/Y/Y-MM], with the year
    and the two-digit month of the local time, and [IndexError] is not raised. *)
Theorem fallback_directory (w : world) (full_path best_date : string) :
  get_best_date w full_path = Ok (best_date, false) ->
  exists n, lookup_path w full_path = Some n /\
    let t := Time.localtime (w_utcoffset w) (earlier_timestamp n) in
    forall (args : Args) (media_dir : string) (w1 : world),
      let new_dir := path_join (dest_dir args)
                       [media_dir; Py.str (Time.tm_year t);
                        Py.str (Time.tm_year t) +:+ "-" +:+ Time.pad2 (Time.tm_mon t)] in
      create_dir args best_date media_dir w1 =
      (if negb (path_exists w1 new_dir) then makedirs w1 new_dir else Ok w1) ≫=
        (fun w' => Ok (new_dir, w')).
Proof.
  intros H. apply get_best_date_false in H as (n & Hn & ->). exists n. split; [assumption|].
  intros t args media_dir w1 new_dir. rewrite strftime_program_format.
  destruct (split_date_text (Py.str (Time.tm_year t)) (Time.pad2 (Time.tm_mon t))
              (Time.pad2 (Time.tm_mday t)) (Time.pad2 (Time.hour12 (Time.tm_hour t)))
              (Time.pad2 (Time.tm_min t)) (Time.pad2 (Time.tm_sec t))
              (no_colon_str _) (no_colon_pad2 _)) as [rest Hsplit].
  apply (create_dir_unfold _ _ _ _ _ _ _ Hsplit).
Qed.

Lemma fallback_directory_witness :
  exists n, lookup_path Sample.w "src/clip.mp4" = Some n /\
    let t := Time.localtime (w_utcoffset Sample.w) (earlier_timestamp n) in
    forall (args : Args) (media_dir : string) (w1 : world),
      let new_dir := path_join (dest_dir args)
                       [media_dir; Py.str (Time.tm_year t);
                        Py.str (Time.tm_year t) +:+ "-" +:+ Time.pad2 (Time.tm_mon t)] in
      create_dir args "2017:06:19 01:26:16" media_dir w1 =
      (if negb (path_exists w1 new_dir) then makedirs w1 new_dir else Ok w1) ≫=
        (fun w' => Ok (new_dir, w')).
Proof.
  apply (fallback_directory Sample.w "src/clip.mp4" "2017:06:19 01:26:16").
  vm_compute. reflexivity.
Defined.

Lemma path_join_absolute a b : Py.startswith b "/" = true -> path_join a [b] = b.
Proof. intros H. unfold path_join. now rewrite H. Qed.

(** X5: when the year part of the date text begins with a slash, the
    destination root and the category are dropped from the path: the
    directory [create_dir] makes and returns is [year-month] itself. *)
Theorem create_dir_absolute_year (args : Args) (date_string media_dir : string) (w : world)
    (year month : string) (rest : list string) :
  Py.split ":" date_string = year :: month :: rest ->
  Py.startswith year "/" = true ->
  create_dir args date_string media_dir w =
  (if negb (path_exists w (year +:+ "-" +:+ month))
   then makedirs w (year +:+ "-" +:+ month) else Ok w) ≫=
    (fun w' => Ok (year +:+ "-" +:+ month, w')).
Proof.
  intros Hparts Hy. rewrite (create_dir_unfold _ _ _ _ _ _ _ Hparts). cbv zeta.
  assert (Hp : path_join (dest_dir args) [media_dir; year; year +:+ "-" +:+ month]
               = year +:+ "-" +:+ month).
  { change [media_dir; year; year +:+ "-" +:+ month]
      with ([media_dir; year] ++ [year +:+ "-" +:+ month]).
    rewrite path_join_app. apply path_join_absolute.
    destruct year; [discriminate | exact Hy]. }
  rewrite Hp. reflexivity.
Qed.

Lemma create_dir_absolute_year_witness :
  create_dir Sample.args "/mnt/usb:06:19" "Pictures" Sample.w =
  (if negb (path_exists Sample.w ("/mnt/usb" +:+ "-" +:+ "06"))
   then makedirs Sample.w ("/mnt/usb" +:+ "-" +:+ "06") else Ok Sample.w) ≫=
    (fun w' => Ok ("/mnt/usb" +:+ "-" +:+ "06", w')).
Proof.
  apply (create_dir_absolute_year Sample.args "/mnt/usb:06:19" "Pictures" Sample.w
           "/mnt/usb" "06" ["19"]).
  - reflexivity.
  - reflexivity.
Defined.

(** What a call of [create_dir] that returns has done. *)
Lemma create_dir_Ok args date_string media_dir w new_dir w' :
  create_dir args date_string media_dir w = Ok (new_dir, w') ->
  exists year month rest,
    Py.split ":" date_string = year :: month :: rest
    /\ new_dir = path_join (dest_dir args) [media_dir; year; year +:+ "-" +:+ month]
    /\ w' = with_fs w (w_fs w')
    /\ (forall q n, w_fs w !! q = Some n -> w_fs w' !! q = Some n)
    /\ (forall q, w_fs w' !! q <> w_fs w !! q ->
        w_fs w !! q = None /\ is_dir_at (w_fs w') q = true /\ q ∈ ancestors (resolve new_dir)).
Proof.
  intros H. destruct (create_dir_parts _ _ _ _ _ H) as (year & month & rest & Hparts).
  exists year, month, rest. split; [assumption|].
  rewrite (create_dir_unfold _ _ _ _ _ _ _ Hparts) in H. cbv zeta in H.
  apply bind_Ok in H as (w1 & Hmk & H). apply Ok_pair_inv in H as [<- <-].
  split; [reflexivity|].
  destruct (path_exists w _); cbn [negb] in Hmk.
  - injection Hmk as <-. split; [now destruct w|]. split; [auto|]. intros q Hq. congruence.
  - destruct (makedirs_Ok _ _ _ Hmk) as (_ & Hw & Hdirs & Hkeep & Hout).
    split; [assumption|]. split; [assumption|]. intros q Hq.
    destruct (decide (q ∈ ancestors (resolve (path_join (dest_dir args)
                [media_dir; year; year +:+ "-" +:+ month])))) as [Hin|Hnin].
    + rewrite Forall_forall in Hdirs. specialize (Hdirs q Hin).
      split; [|auto]. destruct (w_fs w !! q) as [n|] eqn:E; [|reflexivity].
      rewrite (Hkeep _ _ E) in Hq. congruence.
    + now rewrite (Hout q Hnin) in Hq.
Qed.

(** X6: [create_dir] only adds directories, and only on the way to the path
    it returns: an entry that differs after the call did not exist before, is
    a directory, and is an ancestor of the returned path or that path. *)
Theorem create_dir_only_directories (args : Args) (date_string media_dir : string)
    (w w' : world) (new_dir : string) (q : list string) :
  create_dir args date_string media_dir w = Ok (new_dir, w') ->
  w_fs w' !! q <> w_fs w !! q ->
  w_fs w !! q = None /\ is_dir_at (w_fs w') q = true /\ q ∈ ancestors (resolve new_dir).
Proof.
  intros H Hq. destruct (create_dir_Ok _ _ _ _ _ _ H) as (_ & _ & _ & _ & _ & _ & _ & Hnew).
  exact (Hnew q Hq).
Qed.

Lemma create_dir_only_directories_witness :
  w_fs Sample.w !! ["out"; "Pictures"; "2017"] = None
  /\ is_dir_at (w_fs Sample.with_month) ["out"; "Pictures"; "2017"] = true
  /\ ["out"; "Pictures"; "2017"] ∈ ancestors (resolve "out/Pictures/2017/2017-06").
Proof.
  apply (create_dir_only_directories Sample.args "2017:06:19 12:26:16" "Pictures"
           Sample.w Sample.with_month "out/Pictures/2017/2017-06").
  - vm_compute. reflexivity.
  - vm_compute. discriminate.
Defined.

(* ===================================================================== *)
(** * Further properties: the copier *)
(* ===================================================================== *)

Lemma startswith_dot_first s :
  Py.startswith s "." = true -> first_segment s = "" /\ after_first s = s.
Proof.
  destruct s as [|c s]; [discriminate|]. cbn. intros ->. split; reflexivity.
Qed.

(** X7: the first segment of a name that begins with a dot is empty, so the
    count goes in front of the name: the copy of a hidden file is not hidden. *)
Theorem disambiguated_name_hidden (source_file_name : string) (k : Z) :
  Py.startswith source_file_name "." = true ->
  disambiguated_name source_file_name k = Ok ("-" +:+ Py.str k +:+ source_file_name).
Proof.
  intros [Hf Ha]%startswith_dot_first.
  rewrite disambiguated_name_eq. unfold new_name_of. rewrite Hf, Ha. reflexivity.
Qed.

Lemma disambiguated_name_hidden_witness :
  disambiguated_name ".bashrc" 1 = Ok ("-" +:+ Py.str 1 +:+ ".bashrc").
Proof. apply (disambiguated_name_hidden ".bashrc" 1). reflexivity. Defined.

(** X8: the [while] loop of [copy_file] comes to an end for every name,
    every directory and every file system: the names of different counts
    resolve to different paths, and a file system has finitely many. *)
Theorem copy_file_loop_ends (source_dir source_file_name dest_dir : string) (w : world) :
  copy_file source_dir source_file_name dest_dir w <> Diverge
  /\ forall j k, j <> k ->
       new_name_of source_file_name j <> new_name_of source_file_name k
       /\ resolve (path_join dest_dir [new_name_of source_file_name j])
          <> resolve (path_join dest_dir [new_name_of source_file_name k]).
Proof.
  split; [apply copy_file_terminates|]. intros j k Hjk.
  assert (Hr : resolve (path_join dest_dir [new_name_of source_file_name j])
               <> resolve (path_join dest_dir [new_name_of source_file_name k])).
  { intros H. apply Hjk. exact (tested_path_inj _ _ _ _ H). }
  split; [|assumption]. intros H. apply Hr. now rewrite H.
Qed.

Lemma path_exists_false_lookup w p :
  Py.truthy_str p = true -> path_exists w p = false -> w_fs w !! resolve p = None.
Proof.
  intros Ht. unfold path_exists, lookup_path. rewrite Ht.
  destruct (w_fs w !! resolve p); [discriminate | reflexivity].
Qed.

Lemma path_exists_kept w w' p :
  (forall q n, w_fs w !! q = Some n -> w_fs w' !! q = Some n) ->
  path_exists w p = true -> path_exists w' p = true.
Proof.
  intros Hkeep. unfold path_exists, lookup_path. destruct (Py.truthy_str p); [|discriminate].
  destruct (w_fs w !! resolve p) as [n|] eqn:E; [|discriminate]. now rewrite (Hkeep _ _ E).
Qed.

Lemma path_join_truthy_l a b : Py.truthy_str a = true -> Py.truthy_str (path_join a [b]) = true.
Proof.
  intros Ha. unfold path_join. destruct (Py.startswith b "/") eqn:Hb.
  - destruct b; [discriminate | reflexivity].
  - destruct (_ || _); destruct a; try discriminate; reflexivity.
Qed.

(** A copy to a path that does not exist writes that path and nothing else. *)
Lemma copy2_Ok_new w src dst w' :
  copy2 w src dst = Ok w' -> path_exists w dst = false ->
  exists st img data,
    lookup_path w src = Some (File st img data)
    /\ w_fs w !! resolve dst = None
    /\ w' = with_fs w (<[resolve dst := copy_of w (File st img data)]> (w_fs w)).
Proof.
  unfold copy2. intros H Hex.
  destruct (lookup_path w src) as [[st|st img data]|]; try discriminate.
  assert (Hnd : path_isdir w dst = false).
  { unfold path_isdir. unfold path_exists in Hex. destruct (lookup_path w dst); congruence. }
  rewrite Hnd in H. destruct (Py.truthy_str dst) eqn:Ht; [|discriminate]. cbn [negb] in H.
  rewrite (path_exists_false_lookup w dst Ht Hex) in H.
  destruct (w_fs w !! List.removelast (resolve dst)) as [[|]|]; try discriminate.
  injection H as <-. exists st, img, data.
  repeat split. apply (path_exists_false_lookup w dst Ht Hex).
Qed.

Lemma copy_file_Ok source_dir name dest_dir w r w' :
  copy_file source_dir name dest_dir w = Ok (r, w') ->
  exists k st img data, 0 <= k
    /\ r = (if 0 <? k then Some (new_name_of name k) else None)
    /\ lookup_path w (path_join source_dir [name]) = Some (File st img data)
    /\ w_fs w !! resolve (candidate dest_dir name k) = None
    /\ w' = with_fs w (<[resolve (candidate dest_dir name k) := copy_of w (File st img data)]>
                        (w_fs w)).
Proof.
  intros H. destruct (copy_file_result _ _ _ _ _ _ H) as (k & Hk & Hr & Hfree & Hcopy).
  destruct (copy2_Ok_new _ _ _ _ Hcopy Hfree) as (st & img & data & Hsrc & Hnone & Hw).
  exists k, st, img, data. auto.
Qed.

Lemma copy_file_keeps source_dir name dest_dir w r w' :
  copy_file source_dir name dest_dir w = Ok (r, w') ->
  forall q n, w_fs w !! q = Some n -> w_fs w' !! q = Some n.
Proof.
  intros H q n Hq.
  destruct (copy_file_Ok _ _ _ _ _ _ H) as (k & st & img & data & _ & _ & _ & Hnone & ->).
  cbn [w_fs with_fs]. rewrite lookup_insert_ne; [assumption | congruence].
Qed.

(** The paths a call that returns has tested. *)
Lemma copy_file_tested source_dir name dest_dir w r w' :
  copy_file source_dir name dest_dir w = Ok (r, w') ->
  exists k, 0 <= k
    /\ r = (if 0 <? k then Some (new_name_of name k) else None)
    /\ (forall j, 0 <= j < k -> path_exists w (candidate dest_dir name j) = true)
    /\ path_exists w (candidate dest_dir name k) = false
    /\ w_fs w' !! resolve (candidate dest_dir name k) <> None
    /\ w_utcoffset w' = w_utcoffset w.
Proof.
  intros H. unfold copy_file in H.
  pose proof (copy_file_loop_spec w name dest_dir (S (size (w_fs w))) 0 None
                (path_join dest_dir [name])) as Hloop.
  destruct (copy_file_loop _ w name dest_dir 0 None _) as [[[k nn] p]|e|]; try discriminate.
  rewrite Ok_bind in H. apply bind_Ok in H as (w1 & Hcopy & H).
  assert (Hw1 : w1 = w').
  { destruct (0 <? k); [destruct nn|]; try discriminate; now injection H as _ <-. }
  subst w1.
  destruct Hloop as [Hfree Hcase].
  destruct (copy2_Ok_new _ _ _ _ Hcopy Hfree) as (st' & img' & data' & _ & _ & Hw).
  assert (Hk : 0 <= k /\ p = candidate dest_dir name k
               /\ (forall j, 0 <= j < k -> path_exists w (candidate dest_dir name j) = true)
               /\ r = (if 0 <? k then Some (new_name_of name k) else None)).
  { destruct Hcase as [(-> & -> & ->)|(Hlt & -> & -> & Hex & Hall)].
    - cbn in H. injection H as <-. repeat split; try lia; reflexivity.
    - unfold candidate. destruct (Z.eqb_spec k 0) as [->|_]; [lia|].
      destruct (Z.ltb_spec 0 k); [|lia]. injection H as <-.
      repeat split; try lia. intros j Hj.
      destruct (Z.eqb_spec j 0) as [->|Hj0]; [assumption | apply Hall; lia]. }
  destruct Hk as (Hk & -> & Hall & Hr). exists k. repeat split; try assumption.
  - rewrite Hw. cbn [w_fs with_fs]. rewrite lookup_insert_eq. discriminate.
  - rewrite Hw. reflexivity.
Qed.

(** X9: two files of the same name copied to one directory are both there
    afterwards: the second call returns a new name, different from the name
    and from what the first call returned, and each copy holds the content
    and the modification time of its source. *)
Theorem copy_file_twice (source1 source2 name dest_dir : string) (w : world)
    (st1 st2 : stat) (img1 img2 : exif_read) (data1 data2 : string) :
  plain_name name = true ->
  lookup_path w (path_join source1 [name]) = Some (File st1 img1 data1) ->
  lookup_path w (path_join source2 [name]) = Some (File st2 img2 data2) ->
  is_dir_at (w_fs w) (resolve dest_dir) = true ->
  exists (r1 : option string) (w1 : world) (n2 : string) (w2 : world),
    copy_file source1 name dest_dir w = Ok (r1, w1)
    /\ copy_file source2 name dest_dir w1 = Ok (Some n2, w2)
    /\ n2 <> name
    /\ r1 <> Some n2
    /\ w_fs w2 !! resolve (path_join dest_dir [default name r1])
       = Some (copy_of w (File st1 img1 data1))
    /\ w_fs w2 !! resolve (path_join dest_dir [n2]) = Some (copy_of w (File st2 img2 data2)).
Proof.
  intros Hname Hsrc1 Hsrc2 Hdest.
  destruct (copy_file_spec _ _ _ _ _ _ _ Hname Hsrc1 Hdest) as (k1 & Hk1 & Hall1 & Hfree1 & Hrun1).
  set (w1 := with_fs w (<[resolve (candidate dest_dir name k1) := copy_of w (File st1 img1 data1)]>
                          (w_fs w))) in *.
  destruct (candidate_plain dest_dir name k1 Hname) as [Ht1 Hpar1].
  pose proof (path_exists_false_lookup w _ Ht1 Hfree1) as Hnone1.
  assert (Hkeep : forall q n, w_fs w !! q = Some n -> w_fs w1 !! q = Some n).
  { intros q n Hq. cbn [w1 w_fs with_fs]. rewrite lookup_insert_ne; [assumption | congruence]. }
  assert (Hlook : forall p n, lookup_path w p = Some n -> lookup_path w1 p = Some n).
  { intros p n. unfold lookup_path. destruct (Py.truthy_str p); [apply Hkeep | discriminate]. }
  assert (Hdest1 : is_dir_at (w_fs w1) (resolve dest_dir) = true).
  { unfold is_dir_at in *. destruct (w_fs w !! resolve dest_dir) as [[|]|] eqn:E; try discriminate.
    now rewrite (Hkeep _ _ E). }
  destruct (copy_file_spec _ _ _ _ _ _ _ Hname (Hlook _ _ Hsrc2) Hdest1)
    as (k2 & Hk2 & Hall2 & Hfree2 & Hrun2).
  destruct (candidate_plain dest_dir name k2 Hname) as [Ht2 Hpar2].
  pose proof (path_exists_false_lookup w1 _ Ht2 Hfree2) as Hnone2.
  assert (Hne : resolve (candidate dest_dir name k2) <> resolve (candidate dest_dir name k1)).
  { intros E. rewrite E in Hnone2. cbn [w1 w_fs with_fs] in Hnone2.
    rewrite lookup_insert_eq in Hnone2. discriminate. }
  assert (Hk12 : k2 <> k1) by congruence.
  assert (Hpos : 0 < k2).
  { destruct (Z.eq_dec k2 0) as [->|]; [|lia]. destruct (Z.eq_dec k1 0) as [->|]; [congruence|].
    assert (Hex0 : path_exists w (candidate dest_dir name 0) = true) by (apply Hall1; lia).
    unfold path_exists in Hfree2, Hex0.
    destruct (lookup_path w (candidate dest_dir name 0)) as [x|] eqn:E; [|discriminate].
    now rewrite (Hlook _ _ E) in Hfree2. }
  assert (Hc2 : candidate dest_dir name k2 = path_join dest_dir [new_name_of name k2]).
  { unfold candidate. destruct (Z.eqb_spec k2 0); [lia | reflexivity]. }
  assert (Hc1 : candidate dest_dir name k1
                = path_join dest_dir
                    [default name (if 0 <? k1 then Some (new_name_of name k1) else None)]).
  { unfold candidate. destruct (Z.eqb_spec k1 0) as [->|]; [reflexivity|].
    destruct (Z.ltb_spec 0 k1); [reflexivity | lia]. }
  eexists _, w1, (new_name_of name k2), _. split; [exact Hrun1|].
  split; [rewrite Hrun2; destruct (Z.ltb_spec 0 k2); [reflexivity | lia]|].
  split; [apply new_name_of_new|]. split.
  { destruct (Z.ltb_spec 0 k1); [|discriminate]. intros E. injection E as E.
    apply Hne. rewrite Hc2, <- E. unfold candidate.
    destruct (Z.eqb_spec k1 0); [lia | reflexivity]. }
  cbn [w_fs with_fs]. rewrite <- Hc1, <- Hc2. split.
  - rewrite lookup_insert_ne by assumption. cbn [w1 w_fs with_fs]. apply lookup_insert_eq.
  - apply lookup_insert_eq.
Qed.

Lemma copy_file_twice_witness :
  exists (r1 : option string) (w1 : world) (n2 : string) (w2 : world),
    copy_file "src" "IMG_1.jpg" "out" Scenario.w = Ok (r1, w1)
    /\ copy_file "card" "IMG_1.jpg" "out" w1 = Ok (Some n2, w2)
    /\ n2 <> "IMG_1.jpg"
    /\ r1 <> Some n2
    /\ w_fs w2 !! resolve (path_join "out" [default "IMG_1.jpg" r1])
       = Some (copy_of Scenario.w Sample.photo)
    /\ w_fs w2 !! resolve (path_join "out" [n2])
       = Some (copy_of Scenario.w Sample.undated_photo).
Proof.
  apply (copy_file_twice "src" "card" "IMG_1.jpg" "out" Scenario.w
           Sample.times Sample.times
           (ExifReturns (Some {[ 36867 := "2020:01:15 10:00:00" ]}))
           (ExifReturns (Some {[ 36867 := "    :  :     :  :  " ]})) "photo" "undated").
  - reflexivity.
  - vm_compute. reflexivity.
  - vm_compute. reflexivity.
  - vm_compute. reflexivity.
Defined.

(* ===================================================================== *)
(** * Further properties: the orchestrator *)
(* ===================================================================== *)

(** ** Extensions *)

Lemma rfind_from_last_index c s : forall i last,
  rfind_from c s i last =
  match last_index c s with Some k => i + Z.of_nat k | None => last end.
Proof.
  induction s as [|c' s IH]; intros i last; cbn [rfind_from last_index]; [reflexivity|].
  rewrite IH. destruct (last_index c s) as [k|]; [lia|].
  destruct (Ascii.eqb c' c); [lia | reflexivity].
Qed.

Lemma rfind_last_index c s :
  rfind c s = match last_index c s with Some k => Z.of_nat k | None => -1 end.
Proof. unfold rfind. rewrite rfind_from_last_index. destruct (last_index c s); lia. Qed.

Lemma substring_all t : String.substring 0 (String.length t) t = t.
Proof. induction t as [|x t IHt]; cbn; [reflexivity | now rewrite IHt]. Qed.

Lemma last_index_cut c s k :
  last_index c s = Some k ->
  (k < String.length s)%nat
  /\ String.substring 0 k s +:+ String.substring k (String.length s - k) s = s
  /\ Py.startswith (String.substring k (String.length s - k) s) c = true.
Proof.
  revert k. induction s as [|c' s IH]; intros k; cbn [last_index]; [discriminate|].
  destruct (last_index c s) as [j|] eqn:E.
  - intros [= <-]. destruct (IH j eq_refl) as (Hlt & Hcut & Hst).
    cbn [String.length String.substring Nat.sub]. rewrite append_cons, Hcut.
    repeat split; [lia | assumption].
  - destruct (Ascii.eqb c' c) eqn:Ec; [|discriminate]. intros [= <-].
    cbn [String.length String.substring Nat.sub]. split; [lia|].
    rewrite substring_all. repeat split. exact Ec.
Qed.

Lemma lower_char_idem c : Py.lower_char (Py.lower_char c) = Py.lower_char c.
Proof. destruct c as [[] [] [] [] [] [] [] []]; reflexivity. Qed.

Lemma lower_idem s : Py.lower (Py.lower s) = Py.lower s.
Proof. induction s as [|c s IH]; cbn; [reflexivity|]. now rewrite lower_char_idem, IH. Qed.

(** The two parts of [splitext] make the path, and the second is empty or
    begins with the dot. *)
Lemma splitext_cut p :
  (splitext p).1 +:+ (splitext p).2 = p
  /\ ((splitext p).2 = "" \/ Py.startswith (splitext p).2 "." = true).
Proof.
  unfold splitext. rewrite (rfind_last_index "." p).
  destruct (_ && _) eqn:Htest; cbn [fst snd].
  - destruct (last_index "." p) as [k|] eqn:E.
    + destruct (last_index_cut _ _ _ E) as (Hlt & Hcut & Hst).
      unfold slice, slice_from. rewrite Z.sub_0_r, Nat2Z.id. cbn [Z.to_nat].
      split; [exact Hcut | now right].
    + apply andb_true_iff in Htest as [Hlt _]. apply Z.ltb_lt in Hlt.
      rewrite rfind_last_index in Hlt. destruct (last_index "/" p); lia.
  - split; [apply append_nil_r | now left].
Qed.

Lemma lower_ext_shape e :
  e = "" \/ Py.startswith e "." = true ->
  Py.lower e = "" \/ Py.startswith (Py.lower e) "." = true.
Proof.
  intros [->|H]; [now left | right]. destruct e as [|c s]; [discriminate|].
  cbn in H |- *. apply Ascii.eqb_eq in H as ->. reflexivity.
Qed.

(** X10: [splitext] cuts a path in two parts that make the path again, and
    the extension, also once in lower case, is empty or begins with a dot. *)
Theorem splitext_parts (p : string) :
  (splitext p).1 +:+ (splitext p).2 = p
  /\ ((splitext p).2 = "" \/ Py.startswith (splitext p).2 "." = true)
  /\ (Py.lower (splitext p).2 = "" \/ Py.startswith (Py.lower (splitext p).2) "." = true)
  /\ Py.lower (Py.lower (splitext p).2) = Py.lower (splitext p).2.
Proof.
  destruct (splitext_cut p) as [Hcut Hext].
  split; [assumption|]. split; [assumption|]. split; [now apply lower_ext_shape|].
  apply lower_idem.
Qed.

(** ** The file system during the run *)

Lemma process_file_keeps args root name st st' :
  process_file args root name st = Ok st' ->
  forall q n, w_fs (the_world st) !! q = Some n -> w_fs (the_world st') !! q = Some n.
Proof.
  unfold process_file. intros H q n Hq. apply bind_Ok in H as ([[st1 d] m] & Hacc & H).
  destruct (account_file_Ok _ _ _ _ _ _ Hacc) as (e & _ & _ & _ & _ & Hw & _).
  rewrite <- Hw in Hq.
  destruct (Py.mem name ignore_files); cbn [negb] in H.
  - injection H as <-. exact Hq.
  - apply bind_Ok in H as ([created_dir w1] & Hdir & H).
    apply bind_Ok in H as ([new_name w2] & Hcopy & H).
    destruct (create_dir_Ok _ _ _ _ _ _ Hdir) as (_ & _ & _ & _ & _ & _ & Hkeep & _).
    pose proof (copy_file_keeps _ _ _ _ _ _ Hcopy q n (Hkeep q n Hq)) as Hq2.
    destruct new_name as [x|]; [destruct (Py.truthy_str x)|]; injection H as <-; exact Hq2.
Qed.

Lemma process_files_keeps args root files : forall st st',
  process_files args root files st = Ok st' ->
  forall q n, w_fs (the_world st) !! q = Some n -> w_fs (the_world st') !! q = Some n.
Proof.
  induction files as [|name files IH]; intros st st' H q n Hq; cbn [process_files] in H.
  - now injection H as <-.
  - apply bind_Ok in H as (st1 & H1 & H). eauto using process_file_keeps.
Qed.

(** X11: the run deletes nothing and overwrites nothing: every entry of the
    file system when the loop starts, the source files among them, is the
    same when it ends. *)
Theorem main_loop_keeps (args : Args) (walk : list (string * list string * list string))
    (st st' : state) (q : list string) (n : node) :
  main_loop args walk st = Ok st' ->
  w_fs (the_world st) !! q = Some n ->
  w_fs (the_world st') !! q = Some n.
Proof.
  revert st. induction walk as [|[[root dirs] files] walk IH]; intros st H Hq;
    cbn [main_loop] in H.
  - now injection H as <-.
  - apply bind_Ok in H as (st1 & H1 & H). eauto using process_files_keeps.
Qed.

Lemma main_loop_keeps_witness :
  w_fs (the_world Sample.final) !! ["src"; "IMG_1.jpg"] = Some Sample.photo.
Proof.
  apply (main_loop_keeps Sample.args Sample.walk (initial_state Sample.w) Sample.final).
  - vm_compute. reflexivity.
  - vm_compute. reflexivity.
Defined.

(** X12: a file that is not ignored and that the loop body has processed has
    a copy in the directory of its category, its year and its month, under
    its name or under a name with a count; the copy has the content, the
    metadata and the modification time of the file. *)
Theorem process_file_copies (args : Args) (root name : string) (st st' : state) :
  Py.mem name ignore_files = false ->
  process_file args root name st = Ok st' ->
  exists (best_date : string) (had_exif : bool) (year month : string) (rest : list string)
         (stamp : stat) (img : exif_read) (data : string) (copied : string),
    get_best_date (the_world st) (path_join root [name]) = Ok (best_date, had_exif)
    /\ Py.split ":" best_date = year :: month :: rest
    /\ lookup_path (the_world st) (path_join root [name]) = Some (File stamp img data)
    /\ (copied = name \/ exists k, 0 < k /\ copied = new_name_of name k)
    /\ w_fs (the_world st') !!
         resolve (path_join
                    (path_join (dest_dir args)
                       [category (Py.lower (splitext (path_join root [name])).2);
                        year; year +:+ "-" +:+ month])
                    [copied])
       = Some (File {| st_ctime := w_now (the_world st); st_mtime := st_mtime stamp |} img data).
Proof.
  unfold process_file. intros Hign H. apply bind_Ok in H as ([[st1 d] m] & Hacc & H).
  destruct (account_file_Ok _ _ _ _ _ _ Hacc) as (e & Hdate & _ & _ & _ & Hw & Hcat).
  rewrite Hign in H. cbn [negb] in H.
  apply bind_Ok in H as ([created_dir w1] & Hdir & H).
  apply bind_Ok in H as ([new_name w2] & Hcopy & H).
  assert (Hst : the_world st' = w2).
  { destruct new_name as [x|]; [destruct (Py.truthy_str x)|]; injection H as <-; reflexivity. }
  rewrite Hw in Hdir.
  destruct (create_dir_Ok _ _ _ _ _ _ Hdir) as (year & month & rest & Hparts & Hnew & Hw1 & Hkeep & _).
  destruct (copy_file_Ok _ _ _ _ _ _ Hcopy) as (k & stamp & img & data & Hk & Hr & Hsrc & _ & Hw2).
  destruct (get_best_date_Ok_exists _ _ _ Hdate) as [n Hn].
  assert (Hsame : n = File stamp img data).
  { unfold lookup_path in Hn, Hsrc. destruct (Py.truthy_str (path_join root [name]));
      [|discriminate]. rewrite (Hkeep _ _ Hn) in Hsrc. congruence. }
  subst n.
  exists d, e, year, month, rest, stamp, img, data,
    (if k =? 0 then name else new_name_of name k).
  split; [assumption|]. split; [assumption|]. split; [assumption|]. split.
  { destruct (Z.eqb_spec k 0); [now left | right; exists k; split; [lia | reflexivity]]. }
  rewrite Hst, Hw2, <- Hcat, <- Hnew. cbn [w_fs with_fs].
  fold (candidate created_dir name k). rewrite lookup_insert_eq.
  unfold copy_of. rewrite Hw1. reflexivity.
Qed.

Lemma process_file_copies_witness :
  exists (best_date : string) (had_exif : bool) (year month : string) (rest : list string)
         (stamp : stat) (img : exif_read) (data : string) (copied : string),
    get_best_date (the_world (initial_state Sample.w)) (path_join "src" ["IMG_1.jpg"])
    = Ok (best_date, had_exif)
    /\ Py.split ":" best_date = year :: month :: rest
    /\ lookup_path (the_world (initial_state Sample.w)) (path_join "src" ["IMG_1.jpg"])
       = Some (File stamp img data)
    /\ (copied = "IMG_1.jpg" \/ exists k, 0 < k /\ copied = new_name_of "IMG_1.jpg" k)
    /\ w_fs (the_world Scenario.once) !!
         resolve (path_join
                    (path_join (dest_dir Sample.args)
                       [category (Py.lower (splitext (path_join "src" ["IMG_1.jpg"])).2);
                        year; year +:+ "-" +:+ month])
                    [copied])
       = Some (File {| st_ctime := w_now (the_world (initial_state Sample.w));
                       st_mtime := st_mtime stamp |} img data).
Proof.
  apply (process_file_copies Sample.args "src" "IMG_1.jpg" (initial_state Sample.w) Scenario.once).
  - reflexivity.
  - vm_compute. reflexivity.
Defined.

(** X13: processing a file a second time overwrites nothing: the second
    pass finds the name taken, copies under a name with a count and logs the
    rename after the line of the file. *)
Theorem process_file_again (args : Args) (root name : string) (st st1 st2 : state) :
  Py.mem name ignore_files = false ->
  process_file args root name st = Ok st1 ->
  process_file args root name st1 = Ok st2 ->
  exists (line : string) (k : Z),
    0 < k
    /\ logged st2 = logged st1 ++ [line; "Renamed " +:+ name +:+ " to " +:+ new_name_of name k]
    /\ (forall q n, w_fs (the_world st1) !! q = Some n -> w_fs (the_world st2) !! q = Some n).
Proof.
  intros Hign Hrun1 Hrun2.
  pose proof (process_file_keeps _ _ _ _ _ Hrun2) as Hkeep2.
  unfold process_file in Hrun1, Hrun2. rewrite Hign in Hrun1, Hrun2. cbn [negb] in Hrun1, Hrun2.
  apply bind_Ok in Hrun1 as ([[sa d] m] & Hacc & H).
  destruct (account_file_Ok _ _ _ _ _ _ Hacc) as (e & Hdate & _ & _ & _ & Hw & Hcat).
  apply bind_Ok in H as ([cd w1] & Hdir & H).
  apply bind_Ok in H as ([r w2] & Hcopy & H).
  assert (Hst1 : the_world st1 = w2).
  { destruct r as [x|]; [destruct (Py.truthy_str x)|]; injection H as <-; reflexivity. }
  clear H. rewrite Hw in Hdir.
  destruct (create_dir_Ok _ _ _ _ _ _ Hdir) as (year & month & rest & Hparts & Hcd & Hw1 & Hkeep1 & _).
  destruct (copy_file_tested _ _ _ _ _ _ Hcopy) as (k & Hk & _ & Hall & _ & Hthere & Hz2).
  pose proof (copy_file_keeps _ _ _ _ _ _ Hcopy) as Hkeepc.
  assert (Htruthy : Py.truthy_str (candidate cd name 0) = true).
  { apply path_join_truthy_l. rewrite Hcd. apply new_dir_truthy. }
  assert (Htaken : path_exists w2 (candidate cd name 0) = true).
  { destruct (Z.eq_dec k 0) as [->|Hk0].
    - unfold path_exists, lookup_path. rewrite Htruthy.
      destruct (w_fs w2 !! resolve (candidate cd name 0)); congruence.
    - apply (path_exists_kept w1 w2 _ Hkeepc). apply Hall. lia. }
  apply bind_Ok in Hrun2 as ([[sb d'] m'] & Hacc' & H).
  destruct (account_file_Ok _ _ _ _ _ _ Hacc') as (e' & Hdate' & _ & Hlog' & _ & Hw' & Hcat').
  destruct (get_best_date_Ok_exists _ _ _ Hdate) as [n Hn].
  assert (Hsame : get_best_date (the_world st1) (path_join root [name])
                  = get_best_date (the_world st) (path_join root [name])).
  { apply get_best_date_same.
    - rewrite Hst1, Hn. unfold lookup_path in *.
      destruct (Py.truthy_str (path_join root [name])); [|discriminate].
      apply Hkeepc, Hkeep1, Hn.
    - rewrite Hst1, Hz2, Hw1. reflexivity. }
  rewrite Hsame, Hdate in Hdate'. apply Ok_pair_inv in Hdate' as [<- <-].
  assert (m' = m) as -> by congruence.
  apply bind_Ok in H as ([cd' w3] & Hdir' & H).
  apply bind_Ok in H as ([r' w4] & Hcopy' & H).
  rewrite Hw', Hst1 in Hdir'.
  destruct (create_dir_Ok _ _ _ _ _ _ Hdir') as (year' & month' & rest' & Hparts' & Hcd' & _ & Hkeep3 & _).
  rewrite Hparts in Hparts'. injection Hparts' as <- <- <-.
  assert (cd' = cd) as -> by congruence.
  destruct (copy_file_tested _ _ _ _ _ _ Hcopy') as (k' & Hk' & Hr' & _ & Hfree' & _ & _).
  assert (Hpos : 0 < k').
  { destruct (Z.eq_dec k' 0) as [->|]; [|lia]. exfalso.
    pose proof (path_exists_kept w2 w3 _ Hkeep3 Htaken) as Hex3. congruence. }
  destruct (Z.ltb_spec 0 k'); [|lia]. subst r'.
  assert (Ht : Py.truthy_str (new_name_of name k') = true).
  { unfold new_name_of. apply truthy_append_r. reflexivity. }
  rewrite Ht in H. injection H as <-.
  eexists _, k'. split; [assumption|]. split; [|assumption].
  cbn [logged log set_world]. rewrite Hlog', <- app_assoc. reflexivity.
Qed.

Lemma process_file_again_witness :
  exists (line : string) (k : Z),
    0 < k
    /\ logged Scenario.twice
       = logged Scenario.once
         ++ [line; "Renamed " +:+ "IMG_1.jpg" +:+ " to " +:+ new_name_of "IMG_1.jpg" k]
    /\ (forall q n, w_fs (the_world Scenario.once) !! q = Some n ->
        w_fs (the_world Scenario.twice) !! q = Some n).
Proof.
  apply (process_file_again Sample.args "src" "IMG_1.jpg" (initial_state Sample.w)
           Scenario.once Scenario.twice).
  - reflexivity.
  - vm_compute. reflexivity.
  - vm_compute. reflexivity.
Defined.

(** ** Errors *)

(** X14: a file that is not ignored and whose tag 36867 holds a text
    without colon makes the loop body raise [IndexError]. *)
Theorem process_file_undated (args : Args) (root name : string) (st : state)
    (tags : gmap Z string) (value : string) :
  Py.mem name ignore_files = false ->
  Image_getexif (the_world st) (path_join root [name]) = Ok (Some tags) ->
  tags !! 36867 = Some value ->
  no_colon value = true ->
  process_file args root name st = Raise IndexError.
Proof.
  intros Hign Hread Htag Hvalue.
  pose proof (get_best_date_tag _ _ _ _ Hread Htag) as Hdate.
  destruct (account_file_total root name st value true Hdate) as (st1 & m & Hacc).
  unfold process_file. rewrite Hacc, Ok_bind, Hign. cbn [negb].
  unfold create_dir. rewrite (split_no_colon _ Hvalue). reflexivity.
Qed.

Lemma process_file_undated_witness :
  process_file Sample.args "card" "scan.jpg" (initial_state Scenario.w) = Raise IndexError.
Proof.
  apply (process_file_undated Sample.args "card" "scan.jpg" (initial_state Scenario.w)
           {[ 36867 := "unknown" ]} "unknown").
  - reflexivity.
  - vm_compute. reflexivity.
  - reflexivity.
  - reflexivity.
Defined.

Lemma process_files_app args root files1 files2 st :
  process_files args root (files1 ++ files2) st =
  process_files args root files1 st ≫= process_files args root files2.
Proof.
  revert st. induction files1 as [|name files1 IH]; intros st; [reflexivity|].
  cbn [app process_files]. destruct (process_file args root name st); cbn; [apply IH|reflexivity..].
Qed.

Lemma main_loop_app args walk1 walk2 st :
  main_loop args (walk1 ++ walk2) st = main_loop args walk1 st ≫= main_loop args walk2.
Proof.
  revert st. induction walk1 as [|[[root dirs] files] walk1 IH]; intros st; [reflexivity|].
  cbn [app main_loop]. destruct (process_files args root files st); cbn; [apply IH|reflexivity..].
Qed.

(** X15: no error is caught in the loop: when the loop body raises for one
    file, the loop raises the same exception and the files and directories
    after it are not processed. *)
Theorem main_loop_aborts (args : Args) (walk1 walk2 : list (string * list string * list string))
    (root : string) (dirs files1 files2 : list string) (name : string)
    (st st1 st2 : state) (e : exn) :
  main_loop args walk1 st = Ok st1 ->
  process_files args root files1 st1 = Ok st2 ->
  process_file args root name st2 = Raise e ->
  main_loop args (walk1 ++ (root, dirs, files1 ++ name :: files2) :: walk2) st = Raise e.
Proof.
  intros H1 H2 H3. rewrite main_loop_app, H1. cbn [mbind outcome_bind main_loop].
  rewrite process_files_app, H2. cbn [mbind outcome_bind process_files]. rewrite H3. reflexivity.
Qed.

Lemma main_loop_aborts_witness :
  main_loop Sample.args
    ([] ++ ("card", [], [] ++ "scan.jpg" :: ["IMG_1.jpg"]) :: [("src", [], ["clip.mp4"])])
    (initial_state Scenario.w)
  = Raise IndexError.
Proof.
  apply (main_loop_aborts Sample.args [] [("src", [], ["clip.mp4"])] "card" [] [] ["IMG_1.jpg"]
           "scan.jpg" (initial_state Scenario.w) (initial_state Scenario.w)
           (initial_state Scenario.w) IndexError).
  - reflexivity.
  - reflexivity.
  - vm_compute. reflexivity.
Defined.

(** ** Counters *)

(** The counters and the log after one file. *)
Lemma process_file_counts args root name st st' :
  process_file args root name st = Ok st' ->
  total_files st' = total_files st + 1
  /\ ignored_files st' = ignored_files st + (if Py.mem name ignore_files then 1 else 0)
  /\ total_exif st <= total_exif st' <= total_exif st + 1
  /\ Z.of_nat (length (logged st)) + 1 <= Z.of_nat (length (logged st'))
     <= Z.of_nat (length (logged st)) + (if Py.mem name ignore_files then 1 else 2).
Proof.
  unfold process_file. intros H. apply bind_Ok in H as ([[st1 d] m] & Hacc & H).
  destruct (account_file_Ok _ _ _ _ _ _ Hacc) as (e & _ & Hcount & Hlog & Hign & _ & _).
  unfold accounted in Hcount. cbv zeta in Hcount. destruct Hcount as (Ht & _ & He & _).
  assert (Hlen : Z.of_nat (length (logged st1)) = Z.of_nat (length (logged st)) + 1).
  { rewrite Hlog, length_app. cbn. lia. }
  assert (Hexif : total_exif st <= total_exif st1 <= total_exif st + 1)
    by (rewrite He; destruct e; lia).
  destruct (Py.mem name ignore_files); cbn [negb] in H.
  - injection H as <-. cbn. lia.
  - apply bind_Ok in H as ([created_dir w1] & _ & H).
    apply bind_Ok in H as ([new_name w2] & _ & H).
    destruct new_name as [x|]; [destruct (Py.truthy_str x)|]; injection H as <-; cbn;
      rewrite ?length_app; cbn; lia.
Qed.

Lemma counted_nil st : counted [] st st.
Proof. unfold counted. cbn. lia. Qed.

Lemma counted_cons args root name names st st1 st' :
  process_file args root name st = Ok st1 -> counted names st1 st' ->
  counted (name :: names) st st'.
Proof.
  intros H (Ht & Hi & He & Hl).
  destruct (process_file_counts _ _ _ _ _ H) as (Ht1 & Hi1 & He1 & Hl1).
  unfold counted, ignored_names in *. cbn [List.filter length].
  destruct (Py.mem name ignore_files); cbn [length]; lia.
Qed.

Lemma counted_app names1 names2 st st1 st' :
  counted names1 st st1 -> counted names2 st1 st' -> counted (names1 ++ names2) st st'.
Proof.
  unfold counted, ignored_names. rewrite List.filter_app, !length_app. lia.
Qed.

Lemma process_files_counted args root files : forall st st',
  process_files args root files st = Ok st' -> counted files st st'.
Proof.
  induction files as [|name files IH]; intros st st' H; cbn [process_files] in H.
  - injection H as <-. apply counted_nil.
  - apply bind_Ok in H as (st1 & H1 & H). eauto using counted_cons.
Qed.

Lemma main_loop_counted args walk : forall st st',
  main_loop args walk st = Ok st' -> counted (walk_names walk) st st'.
Proof.
  induction walk as [|[[root dirs] files] walk IH]; intros st st' H; cbn [main_loop] in H.
  - injection H as <-. apply counted_nil.
  - apply bind_Ok in H as (st1 & H1 & H).
    change (walk_names ((root, dirs, files) :: walk)) with (files ++ walk_names walk).
    eauto using counted_app, process_files_counted.
Qed.

(** X16: when the loop ends, [total_files] is the number of file names the
    walk has yielded and [ignored_files] the number of those in the ignore
    list; [total_exif] is at most [total_files]; the log has one line for
    every file and at most one more for every file that is not ignored. *)
Theorem main_loop_counts (args : Args) (walk : list (string * list string * list string))
    (w : world) (st : state) :
  main_loop args walk (initial_state w) = Ok st ->
  total_files st = Z.of_nat (length (walk_names walk))
  /\ ignored_files st = Z.of_nat (length (ignored_names (walk_names walk)))
  /\ 0 <= total_exif st <= total_files st
  /\ total_files st <= Z.of_nat (length (logged st)) <= 2 * total_files st - ignored_files st.
Proof.
  intros H. destruct (main_loop_counted _ _ _ _ H) as (Ht & Hi & He & Hl).
  cbn in Ht, Hi, He, Hl. lia.
Qed.

Lemma main_loop_counts_witness :
  total_files Sample.final = Z.of_nat (length (walk_names Sample.walk))
  /\ ignored_files Sample.final = Z.of_nat (length (ignored_names (walk_names Sample.walk)))
  /\ 0 <= total_exif Sample.final <= total_files Sample.final
  /\ total_files Sample.final <= Z.of_nat (length (logged Sample.final))
     <= 2 * total_files Sample.final - ignored_files Sample.final.
Proof.
  apply (main_loop_counts Sample.args Sample.walk Sample.w Sample.final).
  vm_compute. reflexivity.
Defined.

(** ** Keys of the histogram *)

Lemma count_ext_sound p exts :
  histogram_sound exts -> histogram_sound (count_ext (Py.lower (splitext p).2) exts).
Proof.
  intros Hs key n. unfold count_ext.
  assert (Hshape : Py.lower (splitext p).2 = ""
                   \/ Py.startswith (Py.lower (splitext p).2) "." = true)
    by (apply lower_ext_shape, splitext_cut).
  destruct (exts !! Py.lower (splitext p).2) as [m|] eqn:E.
  - destruct (decide (Py.lower (splitext p).2 = key)) as [<-|Hne].
    + rewrite lookup_insert_eq. intros [= <-]. split; [apply lower_idem|].
      split; [assumption|]. destruct (Hs _ _ E) as (_ & _ & ?). lia.
    + rewrite lookup_insert_ne by assumption. apply Hs.
  - destruct (decide (Py.lower (splitext p).2 = key)) as [<-|Hne].
    + rewrite lookup_insert_eq. intros [= <-]. split; [apply lower_idem|].
      split; [assumption | lia].
    + rewrite lookup_insert_ne by assumption. apply Hs.
Qed.

Lemma process_file_sound args root name st st' :
  histogram_sound (file_exts st) -> process_file args root name st = Ok st' ->
  histogram_sound (file_exts st').
Proof.
  intros Hs H. destruct (process_file_Ok _ _ _ _ _ H) as (d & e & _ & Hacc & _).
  unfold accounted in Hacc. cbv zeta in Hacc. destruct Hacc as (_ & -> & _).
  now apply count_ext_sound.
Qed.

Lemma process_files_sound args root files : forall st st',
  histogram_sound (file_exts st) -> process_files args root files st = Ok st' ->
  histogram_sound (file_exts st').
Proof.
  induction files as [|name files IH]; intros st st' Hs H; cbn [process_files] in H.
  - now injection H as <-.
  - apply bind_Ok in H as (st1 & H1 & H). eauto using process_file_sound.
Qed.

Lemma main_loop_sound args walk : forall st st',
  histogram_sound (file_exts st) -> main_loop args walk st = Ok st' ->
  histogram_sound (file_exts st').
Proof.
  induction walk as [|[[root dirs] files] walk IH]; intros st st' Hs H; cbn [main_loop] in H.
  - now injection H as <-.
  - apply bind_Ok in H as (st1 & H1 & H). eauto using process_files_sound.
Qed.

Lemma histogram_total_nonneg (exts : gmap string Z) :
  histogram_sound exts -> 0 <= histogram_total exts.
Proof.
  unfold histogram_total.
  induction exts as [|k x m Hk Hfold IH] using map_first_key_ind.
  - intros _. rewrite map_fold_empty. lia.
  - intros Hm. rewrite map_fold_insert_first_key by assumption.
    assert (1 <= x) by (apply (Hm k x), lookup_insert_eq).
    assert (0 <= map_fold (fun _ n acc => n + acc) 0 m).
    { apply IH. intros k' x' Hk'. apply (Hm k' x'). rewrite lookup_insert_ne; [assumption|].
      intros <-. congruence. }
    lia.
Qed.

(** X17: every key of the histogram is a lower-case extension, empty or
    beginning with a dot, and its count is at least one and at most
    [total_files]. *)
Theorem histogram_keys (args : Args) (walk : list (string * list string * list string))
    (w : world) (st : state) (key : string) (n : Z) :
  main_loop args walk (initial_state w) = Ok st ->
  file_exts st !! key = Some n ->
  Py.lower key = key
  /\ (key = "" \/ Py.startswith key "." = true)
  /\ 1 <= n <= total_files st.
Proof.
  intros H Hkey.
  assert (Hinit : histogram_sound (file_exts (initial_state w))).
  { intros k m Hk. change ((∅ : gmap string Z) !! k = Some m) in Hk.
    rewrite lookup_empty in Hk. discriminate. }
  pose proof (main_loop_sound _ _ _ _ Hinit H) as Hs.
  destruct (Hs _ _ Hkey) as (Hl & Hd & Hn). split; [assumption|]. split; [assumption|].
  split; [assumption|].
  destruct (main_loop_consistent _ _ _ _ (initial_state_consistent w) H) as [Hh _].
  rewrite <- Hh. unfold histogram_total.
  rewrite (map_fold_delete_L _ _ key n (file_exts st)); [|intros; lia|assumption].
  assert (0 <= histogram_total (delete key (file_exts st))).
  { apply histogram_total_nonneg. intros k' x' Hk'. apply (Hs k' x').
    apply lookup_delete_Some in Hk'. tauto. }
  unfold histogram_total in *. lia.
Qed.

Lemma histogram_keys_witness :
  Py.lower ".jpg" = ".jpg"
  /\ (".jpg" = "" \/ Py.startswith ".jpg" "." = true)
  /\ 1 <= 1 <= total_files Sample.final.
Proof.
  apply (histogram_keys Sample.args Sample.walk Sample.w Sample.final ".jpg" 1).
  - vm_compute. reflexivity.
  - vm_compute. reflexivity.
Defined.
